(** * server.py: the web_search and append_to_sheet tool handlers

    A shallow embedding of [src/server.py].  Python values are a small
    inductive type, exceptions are a sum, and the module's effects (the two
    module globals, [os.environ], the file system, the two backends, the
    stderr log) are threaded through an explicit state that also records a
    trace of every effect performed. *)

From Stdlib Require Import ZArith String Ascii List Bool Lia.
From stdpp Require Import base strings gmap list.

Set Warnings "-register-all".

Open Scope Z_scope.
Open Scope string_scope.

(** ** Python values *)

(** The values the handlers receive and return: JSON-shaped data.  A dict is
    an association list in which the first binding of a key is the one in
    force.  A character of [string] stands for one element of a Python
    [str].  Floats are left out. *)
Inductive pyval : Type :=
| PNone
| PBool (b : bool)
| PInt (z : Z)
| PStr (s : string)
| PList (l : list pyval)
| PDict (kv : list (string * pyval)).

(** ** Exceptions *)

(** The exception classes that can leave a handler.  The first three are the
    ones [server.py] raises itself; the others come from builtins and from
    the client libraries.  Messages of builtin failures are abbreviated. *)
Inductive exn : Type :=
| RuntimeError (msg : string)
| ValueError (msg : string)
| FileNotFoundError (msg : string)
| TypeError (msg : string)
| AttributeError (msg : string)
| HTTPStatusError (status : Z)
| TransportError (msg : string)
| HttpError (status : Z)
| LibraryError (cls msg : string).

Inductive result (A : Type) : Type :=
| Ok (a : A)
| Err (e : exn).
Arguments Ok {A} a.
Arguments Err {A} e.

Definition rbind {A B} (r : result A) (k : A -> result B) : result B :=
  match r with
  | Ok a => k a
  | Err e => Err e
  end.

Notation "x <-? r ;; k" := (rbind r (fun x => k))
  (at level 100, r at next level, right associativity).

(** ** Builtins *)

Module Py.

(** [bool(v)] *)
Definition truthy (v : pyval) : bool :=
  match v with
  | PNone => false
  | PBool b => b
  | PInt z => negb (Z.eqb z 0)
  | PStr s => negb (String.eqb s "")
  | PList l => match l with [] => false | _ => true end
  | PDict kv => match kv with [] => false | _ => true end
  end.

(** [a or b] on values already evaluated (the callers below only use it
    with a constant right operand). *)
Definition or_ (a b : pyval) : pyval := if truthy a then a else b.

(** [isinstance(v, str)] and [isinstance(v, list)] *)
Definition is_str (v : pyval) : bool :=
  match v with PStr _ => true | _ => false end.
Definition is_list (v : pyval) : bool :=
  match v with PList _ => true | _ => false end.

(** [len(v)] for the sized values. *)
Definition len (v : pyval) : option nat :=
  match v with
  | PStr s => Some (String.length s)
  | PList l => Some (length l)
  | PDict kv => Some (length kv)
  | _ => None
  end.

(** The first [n] characters of a string. *)
Fixpoint str_take (n : nat) (s : string) : string :=
  match n, s with
  | O, _ => EmptyString
  | S _, EmptyString => EmptyString
  | S n', String c s' => String c (str_take n' s')
  end.

(** How many leading elements [seq[:n]] keeps on a sequence of length
    [len]: a negative [n] counts from the end. *)
Definition stop (len : nat) (n : Z) : nat :=
  if Z.ltb n 0 then Z.to_nat (Z.of_nat len + n) else Z.to_nat n.

(** [v[:n]] *)
Definition slice_upto (v : pyval) (n : Z) : result pyval :=
  match v with
  | PStr s => Ok (PStr (str_take (stop (String.length s) n) s))
  | PList l => Ok (PList (take (stop (length l) n) l))
  | PDict _ => Err (TypeError "unhashable type: 'slice'")
  | _ => Err (TypeError "object is not subscriptable")
  end.

(** The elements a [for] loop visits. *)
Definition iter (v : pyval) : result (list pyval) :=
  match v with
  | PList l => Ok l
  | PStr s => Ok (map (fun c => PStr (String c EmptyString)) (list_ascii_of_string s))
  | PDict kv => Ok (map (fun p => PStr (fst p)) kv)
  | _ => Err (TypeError "object is not iterable")
  end.

Fixpoint assoc (k : string) (kv : list (string * pyval)) : option pyval :=
  match kv with
  | [] => None
  | (k', v) :: rest => if String.eqb k k' then Some v else assoc k rest
  end.

(** [d.get(k, default)]; only a dict has the method. *)
Definition get (d : pyval) (k : string) (default : pyval) : result pyval :=
  match d with
  | PDict kv => Ok (match assoc k kv with Some v => v | None => default end)
  | _ => Err (AttributeError "object has no attribute 'get'")
  end.

(** [int(v)].  On a [str] it is the interpreter's literal parser (whitespace,
    sign, digit grouping, digit limit), taken as given: [int_of_str]. *)
Definition int (int_of_str : string -> option Z) (v : pyval) : result Z :=
  match v with
  | PInt z => Ok z
  | PBool b => Ok (if b then 1 else 0)
  | PStr s =>
      match int_of_str s with
      | Some z => Ok z
      | None => Err (ValueError "invalid literal for int() with base 10")
      end
  | _ => Err (TypeError "int() argument must be a string, a bytes-like object or a real number")
  end.

End Py.

(** ** Data passed to and from the libraries *)

(** The JSON body of the Tavily request, [payload] in [web_search]. *)
Record payload : Type := {
  p_query : pyval;
  p_search_depth : pyval;
  p_max_results : Z }.

Definition payload_dict (p : payload) : pyval :=
  PDict [("query", p_query p);
         ("search_depth", p_search_depth p);
         ("max_results", PInt (p_max_results p))].

(** What [_proxy_info_from_env] reads off [urllib.parse.urlparse(url)];
    the [port] property raises [ValueError] on a malformed port. *)
Record parsed_url : Type := {
  hostname : option string;
  port : result (option Z);
  username : option string;
  password : option string }.

(** [httplib2.ProxyInfo] *)
Record ProxyInfo : Type := {
  proxy_type : Z;
  proxy_host : option string;
  proxy_port : Z;
  proxy_user : option string;
  proxy_pass : option string }.

(** [service_account.Credentials]: the parsed key file and the scopes. *)
Record credentials : Type := {
  cred_info : pyval;
  cred_scopes : list string }.

(** The object [build("sheets", "v4", http=authed_http, ...)] returns.
    [svc_ref] is its identity: two services are the same object exactly when
    their references agree. *)
Record service : Type := {
  svc_ref : nat;
  svc_api : string;
  svc_version : string;
  svc_creds : credentials;
  svc_timeout : Z;
  svc_proxy : option ProxyInfo }.

(** The arguments of [values().append(...).execute(num_retries=2)]. *)
Record append_call : Type := {
  spreadsheetId : pyval;
  range : pyval;
  valueInputOption : string;
  insertDataOption : string;
  body : pyval;
  num_retries : Z }.

(** ** Effects *)

Inductive event : Type :=
| EvGetenv (name : string)
| EvLog (fmt : string) (args : list pyval)
| EvPost (url : string) (headers : list (string * string)) (json : payload) (timeout : Z)
| EvExists (path : string)
| EvReadKeyFile (path : string) (scopes : list string)
| EvBuild (api version : string)
| EvExecute (svc : nat) (call : append_call).

(** The events that reach a backend over the network. *)
Definition is_network (e : event) : bool :=
  match e with
  | EvPost _ _ _ _ | EvExecute _ _ => true
  | _ => false
  end.

Definition network_calls (t : list event) : list event := filter (fun e => is_network e = true) t.

(** Everything outside the module: the interpreter's [int] parser, the
    standard library's URL parser, the file system and the two backends.
    Each answer may depend on the events performed so far. *)
Record host : Type := {
  int_of_str : string -> option Z;
  urlparse : string -> result parsed_url;
  path_exists : list event -> string -> bool;
  from_service_account_file : list event -> string -> result pyval;
  build : list event -> string -> string -> result unit;
  tavily_post : list event -> string -> list (string * string) -> payload -> result pyval;
  sheets_execute : list event -> service -> append_call -> result pyval }.

(** The process: [os.environ], the two module globals, the effects so far
    (oldest first) and the next fresh object reference. *)
Record state : Type := {
  environ : gmap string string;
  TAVILY_KEY : option string;
  _sheets_service : option service;
  trace : list event;
  next_ref : nat }.

Definition emit (e : event) (st : state) : state :=
  {| environ := environ st; TAVILY_KEY := TAVILY_KEY st;
     _sheets_service := _sheets_service st;
     trace := trace st ++ [e]; next_ref := next_ref st |}.

(** A computation that may raise and may change the process state; the state
    reached is kept also when it raises. *)
Definition M (A : Type) : Type := state -> result A * state.

Definition ret {A} (a : A) : M A := fun st => (Ok a, st).
Definition raise {A} (e : exn) : M A := fun st => (Err e, st).
Definition lift {A} (r : result A) : M A := fun st => (r, st).
Definition bind {A B} (m : M A) (k : A -> M B) : M B :=
  fun st => match m st with
            | (Ok a, st') => k a st'
            | (Err e, st') => (Err e, st')
            end.

Notation "x <~ m ;; k" := (bind m (fun x => k))
  (at level 100, m at next level, right associativity).

(** [os.environ.get(name)] *)
Definition getenv (name : string) : M (option string) :=
  fun st => (Ok (environ st !! name), emit (EvGetenv name) st).

(** Truth value of what [os.environ.get] returns: [None] and the empty
    string are false. *)
Definition env_truthy (o : option string) : bool :=
  match o with
  | Some s => negb (String.eqb s "")
  | None => false
  end.

(** [a or b] where both operands read the environment: [b] is evaluated only
    when [a] is false. *)
Definition or_env (a b : M (option string)) : M (option string) :=
  x <~ a ;; if env_truthy x then ret x else b.

(** [log.info(fmt, *args)], written to stderr. *)
Definition log_info (fmt : string) (args : list pyval) : M unit :=
  fun st => (Ok tt, emit (EvLog fmt args) st).

(** ** The module *)

Definition TAVILY_ENDPOINT : string := "https://api.tavily.com/search".

(** [getattr(socks, "PROXY_TYPE_HTTP", 3)], and the fallback of the
    [except] branch. *)
Definition PROXY_TYPE_HTTP : Z := 3.

(** Importing the module: line 60 reads the key once; the client cache
    starts empty. *)
Definition module_init (env : gmap string string) : state :=
  {| environ := env;
     TAVILY_KEY := env !! "TAVILY_API_KEY";
     _sheets_service := None;
     trace := [EvGetenv "TAVILY_API_KEY"];
     next_ref := 0 |}.

(** The body of the [for] loop of [web_search]: one result item. *)
Definition result_item (item : pyval) : result pyval :=
  t <-? Py.get item "title" PNone ;;
  title <-? Py.slice_upto (Py.or_ t (PStr "")) 300 ;;
  u <-? Py.get item "url" PNone ;;
  c <-? Py.get item "content" PNone ;;
  content <-? Py.slice_upto (Py.or_ c (PStr "")) 2000 ;;
  Ok (PDict [("title", title); ("url", Py.or_ u (PStr "")); ("content", content)]).

(** The loop itself: [out.append(...)] for each item in turn. *)
Fixpoint collect (items : list pyval) (out : list pyval) : result (list pyval) :=
  match items with
  | [] => Ok out
  | item :: rest => r <-? result_item item ;; collect rest (out ++ [r])
  end.

(** [rows and not isinstance(rows[0], list)], reached only when [rows] is a
    list: [rows[0]] is read only when [rows] is non-empty. *)
Definition first_not_list (rows : pyval) : bool :=
  Py.truthy rows &&
  match rows with
  | PList (r0 :: _) => negb (Py.is_list r0)
  | _ => false
  end.

Section Server.

Variable H : host.

(** [client.post(...)], [raise_for_status()] and [resp.json()] inside the
    [with httpx.Client(timeout=30.0)] block. *)
Definition post (url : string) (headers : list (string * string)) (p : payload) : M pyval :=
  fun st => (tavily_post H (trace st) url headers p, emit (EvPost url headers p 30) st).

Definition web_search (query search_depth max_results : pyval) : M pyval :=
  fun st =>
  if negb (env_truthy (TAVILY_KEY st)) then
    raise (RuntimeError "TAVILY_API_KEY is not set") st
  else if negb (Py.truthy query) || negb (Py.is_str query) then
    raise (ValueError "query must be a non-empty string") st
  else
   (m <~ lift (Py.int (int_of_str H) max_results) ;;
    let p := {| p_query := query;
                p_search_depth := search_depth;
                p_max_results := Z.max 1 (Z.min m 20) |} in
    let headers := [("Authorization", "Bearer " ++ default "" (TAVILY_KEY st));
                    ("Content-Type", "application/json")] in
    _ <~ log_info "Tavily request: %s" [payload_dict p] ;;
    data <~ post TAVILY_ENDPOINT headers p ;;
    rs <~ lift (Py.get data "results" (PList [])) ;;
    sl <~ lift (Py.slice_upto rs (p_max_results p)) ;;
    items <~ lift (Py.iter sl) ;;
    out <~ lift (collect items []) ;;
    ret (PDict [("query", query); ("results", PList out)])) st.

Definition _proxy_info_from_env : M (option ProxyInfo) :=
  url <~ or_env (or_env (or_env (getenv "HTTPS_PROXY") (getenv "https_proxy"))
                        (getenv "HTTP_PROXY"))
                (getenv "http_proxy") ;;
  if negb (env_truthy url) then ret None
  else
    p <~ lift (urlparse H (default "" url)) ;;
    n <~ lift (port p) ;;
    ret (Some {| proxy_type := PROXY_TYPE_HTTP;
                 proxy_host := hostname p;
                 proxy_port := match n with
                               | Some k => if Z.eqb k 0 then 8080 else k
                               | None => 8080
                               end;
                 proxy_user := username p;
                 proxy_pass := password p |}).

Definition exists_ (path : string) : M bool :=
  fun st => (Ok (path_exists H (trace st) path), emit (EvExists path) st).

Definition load_credentials (path : string) (scopes : list string) : M credentials :=
  fun st =>
    (info <-? from_service_account_file H (trace st) path ;;
     Ok {| cred_info := info; cred_scopes := scopes |},
     emit (EvReadKeyFile path scopes) st).

(** [build("sheets", "v4", http=authed_http, cache_discovery=False)]: a new
    object on success. *)
Definition build_service (api version : string) (creds : credentials)
    (timeout : Z) (pinfo : option ProxyInfo) : M service :=
  fun st =>
    match build H (trace st) api version with
    | Ok _ =>
        (Ok {| svc_ref := next_ref st; svc_api := api; svc_version := version;
               svc_creds := creds; svc_timeout := timeout; svc_proxy := pinfo |},
         {| environ := environ st; TAVILY_KEY := TAVILY_KEY st;
            _sheets_service := _sheets_service st;
            trace := trace st ++ [EvBuild api version];
            next_ref := S (next_ref st) |})
    | Err e => (Err e, emit (EvBuild api version) st)
    end.

(** [_sheets_service = ...] *)
Definition set_sheets_service (s : service) : M unit :=
  fun st => (Ok tt,
             {| environ := environ st; TAVILY_KEY := TAVILY_KEY st;
                _sheets_service := Some s;
                trace := trace st; next_ref := next_ref st |}).

Definition _init_sheets_service : M service :=
  fun st =>
  match _sheets_service st with
  | Some s => ret s st
  | None =>
     (let scopes := ["https://www.googleapis.com/auth/spreadsheets"] in
      key_path <~ or_env (getenv "SERVICE_ACCOUNT_FILE")
                         (getenv "GOOGLE_APPLICATION_CREDENTIALS") ;;
      if negb (env_truthy key_path) then
        raise (RuntimeError "Set GOOGLE_APPLICATION_CREDENTIALS or SERVICE_ACCOUNT_FILE to your service account JSON")
      else
        let path := default "" key_path in
        found <~ exists_ path ;;
        if negb found then
          raise (FileNotFoundError ("Credential file not found: " ++ path))
        else
          creds <~ load_credentials path scopes ;;
          pinfo <~ _proxy_info_from_env ;;
          s <~ build_service "sheets" "v4" creds 30 pinfo ;;
          _ <~ set_sheets_service s ;;
          ret s) st
  end.

Definition execute (s : service) (call : append_call) : M pyval :=
  fun st => (sheets_execute H (trace st) s call, emit (EvExecute (svc_ref s) call) st).

Definition append_to_sheet (spreadsheet_id range_name rows : pyval) : M pyval :=
  if negb (Py.truthy spreadsheet_id) then
    raise (ValueError "spreadsheet_id is required")
  else if negb (Py.truthy range_name) then
    raise (ValueError "range_name is required")
  else if negb (Py.is_list rows) || first_not_list rows then
    raise (ValueError "rows must be a list of lists")
  else
    service <~ _init_sheets_service ;;
    let body := PDict [("values", rows)] in
    result <~ execute service {| spreadsheetId := spreadsheet_id;
                                 range := range_name;
                                 valueInputOption := "RAW";
                                 insertDataOption := "INSERT_ROWS";
                                 body := body;
                                 num_retries := 2 |} ;;
    updates <~ lift (Py.get result "updates" (PDict [])) ;;
    n <~ lift (Py.get updates "updatedRows" PNone) ;;
    updated <~ lift (Py.int (int_of_str H) (Py.or_ n (PInt 0))) ;;
    _ <~ log_info "Sheets append: spreadsheet=%s range=%s rows=%d"
                  [spreadsheet_id; range_name; PInt updated] ;;
    ret (PDict [("updatedRows", PInt updated)]).

End Server.

(** ** The process over time *)

(** What can happen to the process after the module is loaded: a tool is
    invoked, the client factory is called, or the process environment is
    changed. *)
Inductive action : Type :=
| CallWebSearch (query search_depth max_results : pyval)
| CallAppendToSheet (spreadsheet_id range_name rows : pyval)
| CallInitSheets
| Setenv (name value : string)
| Unsetenv (name : string).

Definition with_environ (env : gmap string string) (st : state) : state :=
  {| environ := env; TAVILY_KEY := TAVILY_KEY st;
     _sheets_service := _sheets_service st;
     trace := trace st; next_ref := next_ref st |}.

(** The dispatcher turns a raised exception into an error reply; the process
    goes on from the state the call reached. *)
Definition step (H : host) (st : state) (a : action) : state :=
  match a with
  | CallWebSearch q d m => snd (web_search H q d m st)
  | CallAppendToSheet i r rows => snd (append_to_sheet H i r rows st)
  | CallInitSheets => snd (_init_sheets_service H st)
  | Setenv k v => with_environ (<[k := v]> (environ st)) st
  | Unsetenv k => with_environ (delete k (environ st)) st
  end.

Definition run (H : host) (st : state) (acts : list action) : state :=
  fold_left (step H) acts st.

(** ** Sample hosts and inputs *)

Module Sample.

Definition item (n : string) : pyval :=
  PDict [("title", PStr ("Title " ++ n));
         ("url", PStr ("https://example.org/" ++ n));
         ("content", PStr ("Body " ++ n))].

Definition five_items : list pyval :=
  [item "1"; item "2"; item "3"; item "4"; item "5"].

(** A URL parser good for [http://host:port] and [http://host]. *)
Definition parse (u : string) : result parsed_url :=
  if String.eqb u "http://proxy.local:3128" then
    Ok {| hostname := Some "proxy.local"; port := Ok (Some 3128);
          username := None; password := None |}
  else
    Ok {| hostname := Some "proxy.local"; port := Ok None;
          username := None; password := None |}.

(** A host whose search backend answers every request with five items,
    whose only file is [/etc/sa.json], and whose Sheets backend reports one
    updated row per row sent. *)
Definition stub : host :=
  {| int_of_str := fun _ => None;
     urlparse := parse;
     path_exists := fun _ p => String.eqb p "/etc/sa.json";
     from_service_account_file := fun _ _ => Ok (PDict [("type", PStr "service_account")]);
     build := fun _ _ _ => Ok tt;
     tavily_post := fun _ _ _ _ => Ok (PDict [("results", PList five_items)]);
     sheets_execute := fun _ _ c =>
       match body c with
       | PDict [(_, PList [])] => Ok (PDict [("spreadsheetId", spreadsheetId c)])
       | PDict [(_, PList rows)] =>
           Ok (PDict [("updates", PDict [("updatedRows", PInt (Z.of_nat (length rows)))])])
       | _ => Err (HttpError 400)
       end |}.

Definition env_key : gmap string string := {[ "TAVILY_API_KEY" := "tvly_k" ]}.
Definition env_sheets : gmap string string :=
  {[ "GOOGLE_APPLICATION_CREDENTIALS" := "/etc/sa.json" ]}.

End Sample.

(** * Vocabulary of the statements *)

(** ** Result items *)

(** [fits limit v]: [v] is a sized value of at most [limit] elements. *)
Definition fits (limit : nat) (v : pyval) : bool :=
  match Py.len v with
  | Some n => Nat.leb n limit
  | None => false
  end.

(** What an item holds under a key, when it is a JSON object. *)
Definition field (item : pyval) (k : string) : option pyval :=
  match item with
  | PDict kv => Py.assoc k kv
  | _ => None
  end.

(** Missing, [null], or empty (anything Python takes for false). *)
Definition blank (o : option pyval) : bool :=
  match o with
  | Some v => negb (Py.truthy v)
  | None => true
  end.

(** A field a result item can be built from without a type error: blank, a
    string or an array. *)
Definition sliceable (o : option pyval) : bool :=
  blank o || match o with
             | Some (PStr _) | Some (PList _) => true
             | _ => false
             end.

(** The value a key contributes before truncation: [item.get(k) or ""]. *)
Definition or_empty (o : option pyval) : pyval :=
  Py.or_ (default PNone o) (PStr "").

(** A JSON object whose title and content are blank, strings or arrays. *)
Definition well_formed (item : pyval) : Prop :=
  (exists kv, item = PDict kv) /\
  sliceable (field item "title") = true /\
  sliceable (field item "content") = true.

(** ** The paths through [web_search] *)

(** The query test of line 75. *)
Definition bad_query (query : pyval) : bool :=
  negb (Py.truthy query) || negb (Py.is_str query).

(** The request [web_search] sends once the bound is [b]. *)
Definition search_payload (query search_depth : pyval) (b : Z) : payload :=
  {| p_query := query; p_search_depth := search_depth; p_max_results := b |}.

Definition search_headers (key : option string) : list (string * string) :=
  [("Authorization", "Bearer " ++ default "" key);
   ("Content-Type", "application/json")].

(** What [web_search] makes of the backend's answer once the bound is [b]. *)
Definition shape (query : pyval) (b : Z) (data : pyval) : result pyval :=
  rs <-? Py.get data "results" (PList []) ;;
  sl <-? Py.slice_upto rs b ;;
  items <-? Py.iter sl ;;
  out <-? collect items [] ;;
  Ok (PDict [("query", query); ("results", PList out)]).

(** The state after the log line and the request. *)
Definition after_post (query search_depth : pyval) (b : Z) (st : state) : state :=
  emit (EvPost TAVILY_ENDPOINT (search_headers (TAVILY_KEY st))
               (search_payload query search_depth b) 30)
       (emit (EvLog "Tavily request: %s"
                    [payload_dict (search_payload query search_depth b)]) st).

(** The backend's answer to that request. *)
Definition backend_answer (H : host) (query search_depth : pyval) (b : Z)
    (st : state) : result pyval :=
  tavily_post H
    (trace st ++ [EvLog "Tavily request: %s"
                        [payload_dict (search_payload query search_depth b)]])
    TAVILY_ENDPOINT (search_headers (TAVILY_KEY st))
    (search_payload query search_depth b).

(** ** What a computation leaves alone *)

(** [respects R m]: every run of [m] ends in a state that [R] relates to
    the one it started from. *)
Definition respects (R : state -> state -> Prop) {A} (m : M A) : Prop :=
  forall st, R st (snd (m st)).

(** The environment and both module globals are as before. *)
Definition untouched (st st' : state) : Prop :=
  environ st' = environ st /\
  TAVILY_KEY st' = TAVILY_KEY st /\
  _sheets_service st' = _sheets_service st.

(** The key is as before, and a client once cached is still the cached one. *)
Definition frame (st st' : state) : Prop :=
  TAVILY_KEY st' = TAVILY_KEY st /\
  forall s, _sheets_service st = Some s -> _sheets_service st' = Some s.

Definition same_key (st st' : state) : Prop := TAVILY_KEY st' = TAVILY_KEY st.

(** ** Reading the environment *)

Definition with_trace (t : list event) (st : state) : state :=
  {| environ := environ st; TAVILY_KEY := TAVILY_KEY st;
     _sheets_service := _sheets_service st;
     trace := t; next_ref := next_ref st |}.

(** The value of the first variable of [names] that is set, where a
    variable set to the empty string counts as not set. *)
Fixpoint first_set (env : gmap string string) (names : list string) : option string :=
  match names with
  | [] => None
  | k :: rest =>
      match env !! k with
      | Some v => if String.eqb v "" then first_set env rest else Some v
      | None => first_set env rest
      end
  end.

(** The reads the chain [get(n1) or get(n2) or ...] performs: in order, up
    to the first variable that is set. *)
Fixpoint reads_of (env : gmap string string) (names : list string) : list event :=
  match names with
  | [] => []
  | k :: rest =>
      EvGetenv k :: (if env_truthy (env !! k) then [] else reads_of env rest)
  end.

(** [reads names m]: [m] evaluates that chain over [names].  It performs
    exactly those reads and changes nothing else; its value is the value of
    the first variable that is set, or a false value when none is. *)
Definition reads (names : list string) (m : M (option string)) : Prop :=
  forall st, exists x,
    m st = (Ok x, with_trace (trace st ++ reads_of (environ st) names) st) /\
    first_set (environ st) names = (if env_truthy x then x else None).

(** ** Proxy and credentials *)

Definition proxy_vars : list string :=
  ["HTTPS_PROXY"; "https_proxy"; "HTTP_PROXY"; "http_proxy"].

(** The descriptor lines 128-135 build from the URL chosen. *)
Definition proxy_for (H : host) (u : string) : result (option ProxyInfo) :=
  p <-? urlparse H u ;;
  n <-? port p ;;
  Ok (Some {| proxy_type := PROXY_TYPE_HTTP;
              proxy_host := hostname p;
              proxy_port := match n with
                            | Some k => if Z.eqb k 0 then 8080 else k
                            | None => 8080
                            end;
              proxy_user := username p;
              proxy_pass := password p |}).

Definition credential_vars : list string :=
  ["SERVICE_ACCOUNT_FILE"; "GOOGLE_APPLICATION_CREDENTIALS"].

Definition sheets_scopes : list string :=
  ["https://www.googleapis.com/auth/spreadsheets"].

(** Lines 146-158: what the factory does with the path it resolved. *)
Definition connect (H : host) (path : string) : M service :=
  found <~ exists_ H path ;;
  if negb found then
    raise (FileNotFoundError ("Credential file not found: " ++ path))
  else
    creds <~ load_credentials H path sheets_scopes ;;
    pinfo <~ _proxy_info_from_env H ;;
    s <~ build_service H "sheets" "v4" creds 30 pinfo ;;
    _ <~ set_sheets_service s ;;
    ret s.

(** ** The paths through [append_to_sheet] *)

(** The request [append_to_sheet] sends. *)
Definition append_request (spreadsheet_id range_name rows : pyval) : append_call :=
  {| spreadsheetId := spreadsheet_id;
     range := range_name;
     valueInputOption := "RAW";
     insertDataOption := "INSERT_ROWS";
     body := PDict [("values", rows)];
     num_retries := 2 |}.

(** Lines 177-195: what [append_to_sheet] does once its arguments passed the
    three tests. *)
Definition proceed (H : host) (spreadsheet_id range_name rows : pyval) : M pyval :=
  service <~ _init_sheets_service H ;;
  result <~ execute H service (append_request spreadsheet_id range_name rows) ;;
  updates <~ lift (Py.get result "updates" (PDict [])) ;;
  n <~ lift (Py.get updates "updatedRows" PNone) ;;
  updated <~ lift (Py.int (int_of_str H) (Py.or_ n (PInt 0))) ;;
  _ <~ log_info "Sheets append: spreadsheet=%s range=%s rows=%d"
                [spreadsheet_id; range_name; PInt updated] ;;
  ret (PDict [("updatedRows", PInt updated)]).

(** The test of line 174. *)
Definition rows_rejected (rows : pyval) : bool :=
  negb (Py.is_list rows) || first_not_list rows.

(** The row count a backend answer carries: [result.get("updates",
    {}).get("updatedRows")]. *)
Definition reported_rows (resp : pyval) : result pyval :=
  updates <-? Py.get resp "updates" (PDict []) ;;
  Py.get updates "updatedRows" PNone.

(** ** Outcomes, step by step *)

(** The proxy descriptor the environment [env] stands for. *)
Definition proxy_choice (H : host) (env : gmap string string) : result (option ProxyInfo) :=
  match first_set env proxy_vars with
  | Some u => proxy_for H u
  | None => Ok None
  end.

(** The process once the credential variables were read. *)
Definition consulted (st : state) : state :=
  with_trace (trace st ++ reads_of (environ st) credential_vars) st.

(** The process after the existence test, after the key file was read, and
    after the proxy variables were read. *)
Definition checked (p : string) (st : state) : state := emit (EvExists p) st.

Definition loaded (p : string) (st : state) : state :=
  emit (EvReadKeyFile p sheets_scopes) (checked p st).

Definition resolved (p : string) (st : state) : state :=
  with_trace (trace (loaded p st) ++ reads_of (environ st) proxy_vars) (loaded p st).

(** The client built in [st] from a key file's content and a proxy. *)
Definition client (st : state) (info : pyval) (pinfo : option ProxyInfo) : service :=
  {| svc_ref := next_ref st; svc_api := "sheets"; svc_version := "v4";
     svc_creds := {| cred_info := info; cred_scopes := sheets_scopes |};
     svc_timeout := 30; svc_proxy := pinfo |}.

(** The process once that client is cached. *)
Definition installed (p : string) (s : service) (st : state) : state :=
  {| environ := environ st; TAVILY_KEY := TAVILY_KEY st;
     _sheets_service := Some s;
     trace := trace (resolved p st) ++ [EvBuild "sheets" "v4"];
     next_ref := S (next_ref st) |}.

(** Lines 146-158, outcome by outcome. *)
Definition connect_outcome (H : host) (p : string) (st : state) : result service * state :=
  if path_exists H (trace st) p then
    match from_service_account_file H (trace (checked p st)) p with
    | Err e => (Err e, loaded p st)
    | Ok info =>
        match proxy_choice H (environ st) with
        | Err e => (Err e, resolved p st)
        | Ok pinfo =>
            match build H (trace (resolved p st)) "sheets" "v4" with
            | Err e => (Err e, emit (EvBuild "sheets" "v4") (resolved p st))
            | Ok _ => (Ok (client st info pinfo),
                       installed p (client st info pinfo) st)
            end
        end
    end
  else
    (Err (FileNotFoundError ("Credential file not found: " ++ p)), checked p st).

(** The events of setting a client up, as opposed to talking to a backend or
    to the log. *)
Definition is_setup (e : event) : bool :=
  match e with
  | EvGetenv _ | EvExists _ | EvReadKeyFile _ _ | EvBuild _ _ => true
  | _ => false
  end.

(** The count [append_to_sheet] reads off an answer:
    [int(result.get("updates", {}).get("updatedRows") or 0)]. *)
Definition row_count (H : host) (resp : pyval) : result Z :=
  n <-? reported_rows resp ;;
  Py.int (int_of_str H) (Py.or_ n (PInt 0)).

(** The process once the request went out. *)
Definition requested (s : service) (spreadsheet_id range_name rows : pyval)
    (st : state) : state :=
  emit (EvExecute (svc_ref s) (append_request spreadsheet_id range_name rows)) st.

(** Lines 177-195, outcome by outcome. *)
Definition proceed_outcome (H : host) (spreadsheet_id range_name rows : pyval)
    (st : state) : result pyval * state :=
  match _init_sheets_service H st with
  | (Err e, st1) => (Err e, st1)
  | (Ok s, st1) =>
      let st2 := requested s spreadsheet_id range_name rows st1 in
      match sheets_execute H (trace st1) s
              (append_request spreadsheet_id range_name rows) with
      | Err e => (Err e, st2)
      | Ok resp =>
          match row_count H resp with
          | Err e => (Err e, st2)
          | Ok k =>
              (Ok (PDict [("updatedRows", PInt k)]),
               emit (EvLog "Sheets append: spreadsheet=%s range=%s rows=%d"
                           [spreadsheet_id; range_name; PInt k]) st2)
          end
      end
  end.

(** All three tests of lines 170-175 passed. *)
Definition validated (spreadsheet_id range_name rows : pyval) : bool :=
  Py.truthy spreadsheet_id && Py.truthy range_name && negb (rows_rejected rows).

(** At most one client was ever built: the reference counter is 0 while
    nothing is cached, and afterwards it is 1 and the cached client is the
    first one built. *)
Definition one_client (st : state) : Prop :=
  match _sheets_service st with
  | None => next_ref st = 0%nat
  | Some s => svc_ref s = 0%nat /\ next_ref st = 1%nat
  end.

(** The same process with another key in [TAVILY_KEY]. *)
Definition with_key (k : option string) (st : state) : state :=
  {| environ := environ st; TAVILY_KEY := k;
     _sheets_service := _sheets_service st;
     trace := trace st; next_ref := next_ref st |}.

(** * Properties *)

(** ** Slicing *)

Lemma str_take_length (n : nat) (s : string) :
  (String.length (Py.str_take n s) <= n)%nat.
Proof.
  revert s; induction n as [|n IH]; intros [|c s]; simpl; try lia.
  specialize (IH s); lia.
Qed.

Lemma str_take_all (n : nat) (s : string) :
  (String.length s <= n)%nat -> Py.str_take n s = s.
Proof.
  revert s; induction n as [|n IH]; intros [|c s]; simpl; intros Hl;
    try reflexivity; try lia.
  f_equal; apply IH; lia.
Qed.

Lemma str_take_chars (n : nat) (s : string) :
  list_ascii_of_string (Py.str_take n s) = take n (list_ascii_of_string s).
Proof.
  revert s; induction n as [|n IH]; intros [|c s]; simpl; try reflexivity.
  now rewrite IH.
Qed.

Lemma stop_nonneg (len : nat) (n : Z) : 0 <= n -> Py.stop len n = Z.to_nat n.
Proof.
  intros Hn; unfold Py.stop.
  destruct (Z.ltb_spec n 0); [lia | reflexivity].
Qed.

Lemma slice_upto_fits (v r : pyval) (n : Z) :
  0 <= n -> Py.slice_upto v n = Ok r -> fits (Z.to_nat n) r = true.
Proof.
  intros Hn Hs.
  destruct v; simpl in Hs; try discriminate; inversion Hs; subst; clear Hs;
    unfold fits; simpl; rewrite stop_nonneg by assumption; apply Nat.leb_le.
  - apply str_take_length.
  - rewrite length_take; lia.
Qed.

Lemma slice_upto_short_str (s : string) (n : Z) :
  (Z.of_nat (String.length s) <= n) -> Py.slice_upto (PStr s) n = Ok (PStr s).
Proof.
  intros Hl; simpl.
  rewrite stop_nonneg by lia.
  rewrite str_take_all by lia; reflexivity.
Qed.

Lemma slice_upto_iter (v sl : pyval) (n : Z) (its : list pyval) :
  0 <= n -> Py.slice_upto v n = Ok sl -> Py.iter sl = Ok its ->
  exists items, Py.iter v = Ok items /\ its = take (Z.to_nat n) items.
Proof.
  intros Hn Hs Hi.
  destruct v; simpl in Hs; try discriminate; inversion Hs; subst; clear Hs;
    simpl in Hi; inversion Hi; subst; clear Hi;
    rewrite stop_nonneg by assumption; simpl; eexists; split; try reflexivity.
  rewrite str_take_chars.
  symmetry; apply List.firstn_map.
Qed.

(** ** One result item *)

Lemma or_empty_blank (o : option pyval) : blank o = true -> or_empty o = PStr "".
Proof.
  unfold or_empty, Py.or_; destruct o as [v|]; simpl; [|reflexivity].
  intros Hb; apply negb_true_iff in Hb; now rewrite Hb.
Qed.

Lemma or_empty_not_none (o : option pyval) : or_empty o <> PNone.
Proof.
  unfold or_empty, Py.or_; destruct o as [v|]; simpl; [|discriminate].
  destruct (Py.truthy v) eqn:Ht; [|discriminate].
  destruct v; simpl in Ht; discriminate.
Qed.

Lemma or_empty_str (s : string) : or_empty (Some (PStr s)) = PStr s.
Proof.
  unfold or_empty, Py.or_; simpl.
  destruct (String.eqb_spec s ""); simpl; [now subst | reflexivity].
Qed.

Lemma get_dict (kv : list (string * pyval)) (k : string) :
  Py.get (PDict kv) k PNone = Ok (default PNone (Py.assoc k kv)).
Proof. simpl; destruct (Py.assoc k kv); reflexivity. Qed.

(** On a JSON object the loop body is two truncations. *)
Lemma result_item_dict (kv : list (string * pyval)) :
  result_item (PDict kv) =
    (title <-? Py.slice_upto (or_empty (Py.assoc "title" kv)) 300 ;;
     content <-? Py.slice_upto (or_empty (Py.assoc "content" kv)) 2000 ;;
     Ok (PDict [("title", title);
                ("url", or_empty (Py.assoc "url" kv));
                ("content", content)])).
Proof.
  unfold result_item; rewrite !get_dict; reflexivity.
Qed.

Lemma slice_upto_not_none (v r : pyval) (n : Z) :
  Py.slice_upto v n = Ok r -> r <> PNone.
Proof.
  destruct v; simpl; intros Hs; try discriminate; inversion Hs; discriminate.
Qed.

Lemma slice_upto_sliceable (o : option pyval) (n : Z) :
  sliceable o = true -> exists r, Py.slice_upto (or_empty o) n = Ok r.
Proof.
  unfold sliceable; intros Hs.
  destruct (blank o) eqn:Hb.
  - rewrite or_empty_blank by assumption; eexists; reflexivity.
  - simpl in Hs; destruct o as [[]|]; try discriminate.
    + rewrite or_empty_str; eexists; reflexivity.
    + unfold or_empty, Py.or_; simpl in *.
      destruct l; simpl in *; [discriminate | eexists; reflexivity].
Qed.

Lemma result_item_total (item : pyval) :
  well_formed item -> exists r, result_item item = Ok r.
Proof.
  intros ([kv ->] & Ht & Hc); simpl in Ht, Hc.
  rewrite result_item_dict.
  destruct (slice_upto_sliceable _ 300 Ht) as [t ->].
  destruct (slice_upto_sliceable _ 2000 Hc) as [c ->].
  eexists; reflexivity.
Qed.

(** C3.  Every result item [web_search] produces has a title of at most 300
    and a content of at most 2000 elements; a title, url or content that is
    missing, null or empty in the backend's item comes out as the empty
    string, never absent and never [None]; a string already within its limit
    is returned unchanged.  An item is produced whenever the backend's item
    is a JSON object whose title and content are blank, strings or arrays. *)
Theorem result_item_truncates (item : pyval) :
  ((exists kv, item = PDict kv) ->
   sliceable (field item "title") = true ->
   sliceable (field item "content") = true ->
   exists r, result_item item = Ok r) /\
  (forall r, result_item item = Ok r ->
   exists title url content,
     r = PDict [("title", title); ("url", url); ("content", content)] /\
     fits 300 title = true /\ fits 2000 content = true /\
     title <> PNone /\ url <> PNone /\ content <> PNone /\
     (blank (field item "title") = true -> title = PStr "") /\
     (blank (field item "url") = true -> url = PStr "") /\
     (blank (field item "content") = true -> content = PStr "") /\
     (forall s, field item "title" = Some (PStr s) ->
        title = PStr (Py.str_take 300 s) /\
        ((String.length s <= 300)%nat -> title = PStr s)) /\
     (forall s, field item "content" = Some (PStr s) ->
        content = PStr (Py.str_take 2000 s) /\
        ((String.length s <= 2000)%nat -> content = PStr s)) /\
     (forall v, field item "url" = Some v -> Py.truthy v = true -> url = v)).
Proof.
  split.
  - intros Hd Ht Hc; apply result_item_total; repeat split; assumption.
  - intros r Hr.
    destruct item as [| | | | |kv]; try (simpl in Hr; discriminate).
    rewrite result_item_dict in Hr; simpl field.
    destruct (Py.slice_upto (or_empty (Py.assoc "title" kv)) 300) as [t|] eqn:Et;
      [|discriminate].
    destruct (Py.slice_upto (or_empty (Py.assoc "content" kv)) 2000) as [c|] eqn:Ec;
      [|discriminate].
    simpl in Hr; inversion Hr; subst r; clear Hr.
    exists t, (or_empty (Py.assoc "url" kv)), c.
    split; [reflexivity|].
    split; [exact (slice_upto_fits _ _ 300 ltac:(lia) Et)|].
    split; [exact (slice_upto_fits _ _ 2000 ltac:(lia) Ec)|].
    split; [eapply slice_upto_not_none; exact Et|].
    split; [apply or_empty_not_none|].
    split; [eapply slice_upto_not_none; exact Ec|].
    split; [intros Hb; rewrite (or_empty_blank _ Hb) in Et; simpl in Et; congruence|].
    split; [apply or_empty_blank|].
    split; [intros Hb; rewrite (or_empty_blank _ Hb) in Ec; simpl in Ec; congruence|].
    split; [|split].
    + intros s Hs; rewrite Hs, or_empty_str in Et.
      split.
      * unfold Py.slice_upto in Et; rewrite stop_nonneg in Et by lia.
        injection Et as <-; reflexivity.
      * intros Hl; rewrite slice_upto_short_str in Et by lia; congruence.
    + intros s Hs; rewrite Hs, or_empty_str in Ec.
      split.
      * unfold Py.slice_upto in Ec; rewrite stop_nonneg in Ec by lia.
        injection Ec as <-; reflexivity.
      * intros Hl; rewrite slice_upto_short_str in Ec by lia; congruence.
    + intros v Hv Htv; rewrite Hv; unfold or_empty, Py.or_; simpl; now rewrite Htv.
Qed.

Lemma result_item_truncates_witness :
  exists title url content,
    result_item (PDict [("title", PNone); ("content", PStr "abc")]) =
      Ok (PDict [("title", title); ("url", url); ("content", content)]) /\
    title = PStr "" /\ url = PStr "" /\ content = PStr "abc".
Proof.
  destruct (result_item_truncates (PDict [("title", PNone); ("content", PStr "abc")]))
    as [Hsome Hshape].
  destruct Hsome as [r Hr];
    [eexists; reflexivity | reflexivity | reflexivity |].
  destruct (Hshape r Hr)
    as (t & u & c & -> & _ & _ & _ & _ & _ & Ht & Hu & _ & _ & Hc & _).
  exists t, u, c.
  split; [exact Hr|].
  split; [apply Ht; reflexivity|].
  split; [apply Hu; reflexivity|].
  destruct (Hc "abc" eq_refl) as [_ Hshort]; apply Hshort; simpl; lia.
Defined.

(** ** The paths through [web_search] *)

Section WebSearchPaths.

Variable H : host.
Variables (query search_depth max_results : pyval) (st : state).

Lemma web_search_no_key :
  env_truthy (TAVILY_KEY st) = false ->
  web_search H query search_depth max_results st =
    (Err (RuntimeError "TAVILY_API_KEY is not set"), st).
Proof. intros Hk; unfold web_search; rewrite Hk; reflexivity. Qed.

Lemma web_search_bad_query :
  env_truthy (TAVILY_KEY st) = true -> bad_query query = true ->
  web_search H query search_depth max_results st =
    (Err (ValueError "query must be a non-empty string"), st).
Proof.
  intros Hk Hq; unfold web_search, bad_query in *; rewrite Hk, Hq; reflexivity.
Qed.

Lemma web_search_bad_int (e : exn) :
  env_truthy (TAVILY_KEY st) = true -> bad_query query = false ->
  Py.int (int_of_str H) max_results = Err e ->
  web_search H query search_depth max_results st = (Err e, st).
Proof.
  intros Hk Hq Hi; unfold web_search, bad_query in *; rewrite Hk, Hq; simpl.
  unfold bind, lift; rewrite Hi; reflexivity.
Qed.

Lemma web_search_posts (m : Z) :
  env_truthy (TAVILY_KEY st) = true -> bad_query query = false ->
  Py.int (int_of_str H) max_results = Ok m ->
  let b := Z.max 1 (Z.min m 20) in
  web_search H query search_depth max_results st =
    (data <-? backend_answer H query search_depth b st ;; shape query b data,
     after_post query search_depth b st).
Proof.
  intros Hk Hq Hi b; unfold web_search, bad_query in *; rewrite Hk, Hq; simpl.
  unfold bind, lift, log_info, post, ret; rewrite Hi; simpl.
  fold b; unfold backend_answer, shape, after_post, search_payload, search_headers; simpl.
  match goal with |- context [tavily_post H ?t ?u ?h ?p] =>
    destruct (tavily_post H t u h p) as [data|e] eqn:Ep end; [|reflexivity].
  simpl.
  destruct (Py.get data "results" (PList [])) as [rs|]; [|reflexivity]; simpl.
  destruct (Py.slice_upto rs b) as [sl|]; [|reflexivity]; simpl.
  destruct (Py.iter sl) as [items|]; [|reflexivity]; simpl.
  destruct (collect items []) as [out|]; reflexivity.
Qed.

End WebSearchPaths.

(** The loop keeps the order and appends one result per item. *)
Lemma collect_spec (items out res : list pyval) :
  collect items out = Ok res <->
  exists rs, Forall2 (fun item r => result_item item = Ok r) items rs /\
             res = (out ++ rs)%list.
Proof.
  revert out res; induction items as [|item rest IH]; intros out res; simpl.
  - split.
    + intros Hc; injection Hc as <-; exists []; split; [constructor|].
      now rewrite app_nil_r.
    + intros (rs & Hf & ->); inversion Hf; subst; now rewrite app_nil_r.
  - destruct (result_item item) as [r|e] eqn:Er; simpl.
    + rewrite IH; split.
      * intros (rs & Hf & ->); exists (r :: rs); split.
        -- constructor; assumption.
        -- now rewrite <- app_assoc.
      * intros (rs & Hf & ->); inversion Hf as [|? r' ? rs' Hr Hf']; subst.
        exists rs'; split; [assumption|].
        rewrite Er in Hr; injection Hr as ->; now rewrite <- app_assoc.
    + split; [discriminate|].
      intros (rs & Hf & _); inversion Hf as [|? r' ? rs' Hr Hf']; subst.
      rewrite Er in Hr; discriminate.
Qed.

Lemma shape_spec (query : pyval) (b : Z) (data v : pyval) :
  0 <= b -> shape query b data = Ok v ->
  exists (rs : pyval) (items out : list pyval),
    Py.get data "results" (PList []) = Ok rs /\
    Py.iter rs = Ok items /\
    v = PDict [("query", query); ("results", PList out)] /\
    Forall2 (fun item r => result_item item = Ok r) (take (Z.to_nat b) items) out.
Proof.
  intros Hb Hs; unfold shape in Hs.
  destruct (Py.get data "results" (PList [])) as [rs|] eqn:Eg;
    cbn [rbind] in Hs; [|discriminate].
  destruct (Py.slice_upto rs b) as [sl|] eqn:Es;
    cbn [rbind] in Hs; [|discriminate].
  destruct (Py.iter sl) as [its|] eqn:Ei;
    cbn [rbind] in Hs; [|discriminate].
  destruct (collect its []) as [out|] eqn:Ec;
    cbn [rbind] in Hs; [|discriminate].
  injection Hs as <-.
  destruct (slice_upto_iter _ _ _ _ Hb Es Ei) as (items & Hit & ->).
  apply collect_spec in Ec; destruct Ec as (rs' & Hf & ->).
  exists rs, items, rs'; repeat split; assumption.
Qed.

Lemma collect_total (items out : list pyval) :
  Forall well_formed items -> exists res, collect items out = Ok res.
Proof.
  revert out; induction items as [|item rest IH]; intros out Hw; simpl.
  - eexists; reflexivity.
  - inversion Hw as [|? ? Hi Hrest]; subst.
    destruct (result_item_total item Hi) as [r ->]; simpl.
    now apply IH.
Qed.

(** [web_search] does return: with a key, a valid query and a coercible
    [max_results], an answer whose first [b] results are well formed yields
    a result. *)
Lemma web_search_succeeds (H : host) (query search_depth max_results : pyval)
    (st : state) (m : Z) (data : pyval) (items : list pyval) :
  env_truthy (TAVILY_KEY st) = true -> bad_query query = false ->
  Py.int (int_of_str H) max_results = Ok m ->
  let b := Z.max 1 (Z.min m 20) in
  backend_answer H query search_depth b st = Ok data ->
  Py.get data "results" (PList []) = Ok (PList items) ->
  Forall well_formed (take (Z.to_nat b) items) ->
  exists out,
    web_search H query search_depth max_results st =
      (Ok (PDict [("query", query); ("results", PList out)]),
       after_post query search_depth b st).
Proof.
  intros Hk Hq Hi b Hd Hg Hw.
  rewrite (web_search_posts H query search_depth max_results st m Hk Hq Hi).
  fold b; rewrite Hd; cbn [rbind]; unfold shape; rewrite Hg; cbn [rbind].
  unfold Py.slice_upto; rewrite stop_nonneg by (unfold b; lia).
  cbn [rbind Py.iter].
  destruct (collect_total _ [] Hw) as [out ->].
  exists out; reflexivity.
Qed.

(** C2.  With the key present and a valid query, an integer [max_results] of
    [m] makes [web_search] send [max(1, min(m, 20))] to the backend and
    slice the answer with the same bound; the bound lies in [1, 20], leaves
    an in-range [m] alone, lifts smaller values to 1 and lowers larger ones
    to 20; no value of [m] raises.  A value [int] cannot coerce raises what
    [int] raises, before any request is made, and a value it can coerce
    behaves as the integer it coerces to. *)
Theorem max_results_clamped (H : host) (query search_depth : pyval) (st : state) :
  env_truthy (TAVILY_KEY st) = true -> bad_query query = false ->
  (forall m : Z,
     let b := Z.max 1 (Z.min m 20) in
     1 <= b <= 20 /\
     (1 <= m <= 20 -> b = m) /\ (m < 1 -> b = 1) /\ (20 < m -> b = 20) /\
     web_search H query search_depth (PInt m) st =
       (data <-? backend_answer H query search_depth b st ;; shape query b data,
        after_post query search_depth b st)) /\
  (forall v e, Py.int (int_of_str H) v = Err e ->
     web_search H query search_depth v st = (Err e, st)) /\
  (forall v m, Py.int (int_of_str H) v = Ok m ->
     web_search H query search_depth v st =
     web_search H query search_depth (PInt m) st).
Proof.
  intros Hk Hq; split; [|split].
  - intros m b; repeat split; try (unfold b; lia).
    apply web_search_posts; [assumption | assumption | reflexivity].
  - intros v e He; now apply web_search_bad_int.
  - intros v m Hm.
    rewrite (web_search_posts H query search_depth v st m Hk Hq Hm).
    now rewrite (web_search_posts H query search_depth (PInt m) st m Hk Hq eq_refl).
Qed.

Lemma max_results_clamped_witness :
  let st := module_init Sample.env_key in
  trace (snd (web_search Sample.stub (PStr "q") (PStr "basic") (PInt 50) st)) =
    trace (after_post (PStr "q") (PStr "basic") 20 st) /\
  web_search Sample.stub (PStr "q") (PStr "basic") PNone st =
    (Err (TypeError "int() argument must be a string, a bytes-like object or a real number"), st).
Proof.
  intros st.
  destruct (max_results_clamped Sample.stub (PStr "q") (PStr "basic") st)
    as (Hint & Hbad & _); [reflexivity | reflexivity |].
  split.
  - destruct (Hint 50) as (_ & _ & _ & _ & ->); reflexivity.
  - apply Hbad; reflexivity.
Defined.

(** The three values the specification names, as the backend sees them. *)
Example max_results_0_50_5 :
  map (fun m => network_calls (trace (snd
         (web_search Sample.stub (PStr "q") (PStr "basic") (PInt m)
                     (module_init Sample.env_key)))))
      [0; 50; 5] =
  map (fun b => [EvPost TAVILY_ENDPOINT (search_headers (Some "tvly_k"))
                        (search_payload (PStr "q") (PStr "basic") b) 30])
      [1; 20; 5].
Proof. vm_compute. reflexivity. Qed.

(** C4.  A successful [web_search] returns the results built, in order, from
    the first [b] entries of the backend's [results], where [b] is the
    clamped [max_results]: never more than [b] of them, and exactly [b] when
    the backend sent at least that many. *)
Theorem web_search_prefix (H : host) (query search_depth max_results v : pyval)
    (st st' : state) :
  web_search H query search_depth max_results st = (Ok v, st') ->
  exists (m : Z) (data rs : pyval) (items out : list pyval),
    let b := Z.max 1 (Z.min m 20) in
    Py.int (int_of_str H) max_results = Ok m /\
    backend_answer H query search_depth b st = Ok data /\
    Py.get data "results" (PList []) = Ok rs /\
    Py.iter rs = Ok items /\
    v = PDict [("query", query); ("results", PList out)] /\
    Forall2 (fun item r => result_item item = Ok r) (take (Z.to_nat b) items) out /\
    length out = Nat.min (Z.to_nat b) (length items) /\
    (length out <= Z.to_nat b)%nat /\
    st' = after_post query search_depth b st.
Proof.
  intros Hw.
  destruct (env_truthy (TAVILY_KEY st)) eqn:Hk;
    [|rewrite web_search_no_key in Hw by assumption; discriminate].
  destruct (bad_query query) eqn:Hq;
    [rewrite web_search_bad_query in Hw by assumption; discriminate|].
  destruct (Py.int (int_of_str H) max_results) as [m|e] eqn:Hi;
    [|rewrite (web_search_bad_int _ _ _ _ _ e Hk Hq Hi) in Hw; discriminate].
  rewrite (web_search_posts _ _ _ _ _ m Hk Hq Hi) in Hw; cbv zeta in Hw.
  destruct (backend_answer H query search_depth (Z.max 1 (Z.min m 20)) st)
    as [data|] eqn:Ed; [|discriminate].
  simpl in Hw; injection Hw as Hs <-.
  apply shape_spec in Hs; [|lia].
  destruct Hs as (rs & items & out & Hg & Hit & -> & Hf).
  exists m, data, rs, items, out; cbv zeta.
  assert (Hlen : length out = Nat.min (Z.to_nat (Z.max 1 (Z.min m 20))) (length items)).
  { apply Forall2_length in Hf; rewrite <- Hf, length_take; reflexivity. }
  repeat split; try assumption; lia.
Qed.

Lemma web_search_prefix_witness :
  let st := module_init Sample.env_key in
  let call := web_search Sample.stub (PStr "rust ownership") (PStr "basic") (PInt 3) st in
  exists out,
    fst call = Ok (PDict [("query", PStr "rust ownership"); ("results", PList out)]) /\
    Forall2 (fun item r => result_item item = Ok r) (take 3 Sample.five_items) out /\
    length out = 3%nat.
Proof.
  intros st call.
  destruct (web_search_prefix Sample.stub (PStr "rust ownership") (PStr "basic")
              (PInt 3)
              (PDict [("query", PStr "rust ownership");
                      ("results", PList (take 3 Sample.five_items))])
              st (snd call))
    as (m & data & rs & items & out & Hm & Hd & Hg & Hi & Hv & Hf & Hl & _);
    [vm_compute; reflexivity|].
  injection Hm as <-.
  vm_compute in Hd; injection Hd as <-.
  vm_compute in Hg; injection Hg as <-.
  vm_compute in Hi; injection Hi as <-.
  exists out; split; [|split].
  - injection Hv as <-; vm_compute; reflexivity.
  - exact Hf.
  - exact Hl.
Defined.

(** C10.  [web_search] tests the key before the query: without a key it
    raises the [RuntimeError] of line 73 whatever the query is, an empty or
    non-string query included, and changes nothing; the [ValueError] of
    line 76 is raised for a bad query only when the key is there. *)
Theorem key_check_precedes_query (H : host) (query search_depth max_results : pyval)
    (st : state) :
  (env_truthy (TAVILY_KEY st) = false ->
   web_search H query search_depth max_results st =
     (Err (RuntimeError "TAVILY_API_KEY is not set"), st)) /\
  (env_truthy (TAVILY_KEY st) = true -> bad_query query = true ->
   web_search H query search_depth max_results st =
     (Err (ValueError "query must be a non-empty string"), st)) /\
  (forall st',
   web_search H query search_depth max_results st =
     (Err (ValueError "query must be a non-empty string"), st') ->
   env_truthy (TAVILY_KEY st) = true).
Proof.
  split; [|split].
  - apply web_search_no_key.
  - apply web_search_bad_query.
  - intros st' Hw.
    destruct (env_truthy (TAVILY_KEY st)) eqn:Hk; [reflexivity|].
    rewrite web_search_no_key in Hw by assumption; discriminate.
Qed.

Lemma key_check_precedes_query_witness :
  web_search Sample.stub (PStr "") (PStr "basic") (PInt 5) (module_init ∅) =
    (Err (RuntimeError "TAVILY_API_KEY is not set"), module_init ∅) /\
  web_search Sample.stub (PInt 7) (PStr "basic") (PInt 5) (module_init Sample.env_key) =
    (Err (ValueError "query must be a non-empty string"), module_init Sample.env_key) /\
  env_truthy (TAVILY_KEY (module_init Sample.env_key)) = true.
Proof.
  split; [|split].
  - apply (key_check_precedes_query Sample.stub (PStr "") (PStr "basic") (PInt 5)
             (module_init ∅)); reflexivity.
  - apply (key_check_precedes_query Sample.stub (PInt 7) (PStr "basic") (PInt 5)
             (module_init Sample.env_key)); reflexivity.
  - apply (key_check_precedes_query Sample.stub (PInt 7) (PStr "basic") (PInt 5)
             (module_init Sample.env_key))
      with (st' := module_init Sample.env_key).
    vm_compute; reflexivity.
Defined.

(** ** What a computation leaves alone *)

Section Respects.

Context (R : state -> state -> Prop) `{!Reflexive R} `{!Transitive R}.

Lemma respects_ret {A} (a : A) : respects R (ret a).
Proof. intros st; simpl; reflexivity. Qed.

Lemma respects_raise {A} (e : exn) : respects R (@raise A e).
Proof. intros st; simpl; reflexivity. Qed.

Lemma respects_lift {A} (r : result A) : respects R (lift r).
Proof. intros st; simpl; reflexivity. Qed.

Lemma respects_bind {A B} (m : M A) (k : A -> M B) :
  respects R m -> (forall a, respects R (k a)) -> respects R (bind m k).
Proof.
  intros Hm Hk st; unfold bind.
  specialize (Hm st); destruct (m st) as [[a|e] st1]; simpl in *.
  - etransitivity; [exact Hm | apply Hk].
  - exact Hm.
Qed.

End Respects.

#[local] Instance untouched_refl : Reflexive untouched.
Proof. intros st; repeat split. Qed.

#[local] Instance untouched_trans : Transitive untouched.
Proof.
  intros a b c (He & Hk & Hc) (He' & Hk' & Hc'); repeat split; congruence.
Qed.

#[local] Instance frame_refl : Reflexive frame.
Proof. intros st; split; auto. Qed.

#[local] Instance frame_trans : Transitive frame.
Proof.
  intros a b c (Hk & Hc) (Hk' & Hc'); split; [congruence | auto].
Qed.

#[local] Instance same_key_refl : Reflexive same_key.
Proof. intros st; reflexivity. Qed.

#[local] Instance same_key_trans : Transitive same_key.
Proof. intros a b c Hab Hbc; unfold same_key in *; congruence. Qed.

Lemma untouched_frame (st st' : state) : untouched st st' -> frame st st'.
Proof. intros (_ & Hk & Hc); split; [assumption | intros s; congruence]. Qed.

Lemma untouched_same_key (st st' : state) : untouched st st' -> same_key st st'.
Proof. intros (_ & Hk & _); exact Hk. Qed.

Lemma respects_weaken (R R' : state -> state -> Prop) {A} (m : M A) :
  (forall st st', R st st' -> R' st st') -> respects R m -> respects R' m.
Proof. intros Hi Hm st; apply Hi, Hm. Qed.

Lemma untouched_emit (e : event) (st : state) : untouched st (emit e st).
Proof. repeat split. Qed.

Section Quiet.

Variable H : host.

Abbreviation quiet := (respects untouched).

Lemma quiet_getenv (name : string) : quiet (getenv name).
Proof. intros st; apply untouched_emit. Qed.

Lemma quiet_log_info (fmt : string) (args : list pyval) : quiet (log_info fmt args).
Proof. intros st; apply untouched_emit. Qed.

Lemma quiet_post (url : string) (hs : list (string * string)) (p : payload) :
  quiet (post H url hs p).
Proof. intros st; apply untouched_emit. Qed.

Lemma quiet_exists (path : string) : quiet (exists_ H path).
Proof. intros st; apply untouched_emit. Qed.

Lemma quiet_load_credentials (path : string) (scopes : list string) :
  quiet (load_credentials H path scopes).
Proof. intros st; apply untouched_emit. Qed.

Lemma quiet_execute (s : service) (c : append_call) : quiet (execute H s c).
Proof. intros st; apply untouched_emit. Qed.

Lemma quiet_build_service (api version : string) (creds : credentials)
    (timeout : Z) (pinfo : option ProxyInfo) :
  quiet (build_service H api version creds timeout pinfo).
Proof.
  intros st; unfold build_service.
  destruct (build H (trace st) api version); repeat split.
Qed.

Lemma quiet_or_env (a b : M (option string)) :
  quiet a -> quiet b -> quiet (or_env a b).
Proof.
  intros Ha Hb; unfold or_env; apply respects_bind; try typeclasses eauto.
  - exact Ha.
  - intros x; destruct (env_truthy x); [apply respects_ret; typeclasses eauto | exact Hb].
Qed.

End Quiet.

Create HintDb quiet.

#[local] Hint Resolve respects_ret respects_raise respects_lift
  quiet_getenv quiet_log_info quiet_post quiet_exists quiet_load_credentials
  quiet_execute quiet_build_service quiet_or_env
  untouched_refl untouched_trans frame_refl frame_trans
  same_key_refl same_key_trans : quiet.

(** Peels a chain of binds, branching on the conditionals in between. *)
Ltac respects_chain :=
  repeat first
    [ progress cbv zeta
    | apply respects_bind; [typeclasses eauto | | intro]
    | match goal with
      | |- respects _ (if ?b then _ else _) => destruct b
      end
    | solve [auto 6 with quiet] ].

Section Frames.

Variable H : host.

Lemma quiet_proxy_info : respects untouched (_proxy_info_from_env H).
Proof. unfold _proxy_info_from_env; respects_chain. Qed.

Lemma quiet_web_search (query search_depth max_results : pyval) :
  respects untouched (web_search H query search_depth max_results).
Proof.
  intros st; unfold web_search.
  destruct (negb (env_truthy (TAVILY_KEY st))); [apply untouched_refl|].
  destruct (negb (Py.truthy query) || negb (Py.is_str query)); [apply untouched_refl|].
  match goal with |- untouched st (snd (?m st)) =>
    let Hm := fresh in assert (Hm : respects untouched m); [|exact (Hm st)] end.
  respects_chain.
Qed.

Lemma init_cached (st : state) (s : service) :
  _sheets_service st = Some s -> _init_sheets_service H st = (Ok s, st).
Proof. intros Hc; unfold _init_sheets_service; rewrite Hc; reflexivity. Qed.

Lemma same_key_set_sheets_service (s : service) :
  respects same_key (set_sheets_service s).
Proof. intros st; reflexivity. Qed.

Lemma same_key_init : respects same_key (_init_sheets_service H).
Proof.
  intros st; unfold _init_sheets_service.
  destruct (_sheets_service st); [reflexivity|].
  match goal with |- same_key st (snd (?m st)) =>
    let Hm := fresh in assert (Hm : respects same_key m); [|exact (Hm st)] end.
  respects_chain.
  all: try (apply (respects_weaken untouched same_key);
            [exact untouched_same_key | solve [auto with quiet]]).
  apply same_key_set_sheets_service.
Qed.

Lemma frame_init : respects frame (_init_sheets_service H).
Proof.
  intros st; destruct (_sheets_service st) as [s|] eqn:Hc.
  - rewrite (init_cached st s Hc); reflexivity.
  - split; [apply same_key_init | intros s Hs; congruence].
Qed.

Lemma frame_web_search (query search_depth max_results : pyval) :
  respects frame (web_search H query search_depth max_results).
Proof.
  apply (respects_weaken untouched frame); [exact untouched_frame|].
  apply quiet_web_search.
Qed.

Lemma frame_append_to_sheet (spreadsheet_id range_name rows : pyval) :
  respects frame (append_to_sheet H spreadsheet_id range_name rows).
Proof.
  unfold append_to_sheet; respects_chain.
  all: try (apply (respects_weaken untouched frame);
            [exact untouched_frame | solve [auto with quiet]]).
  apply frame_init.
Qed.

Lemma frame_step (st : state) (a : action) : frame st (step H st a).
Proof.
  destruct a; simpl.
  - apply frame_web_search.
  - apply frame_append_to_sheet.
  - apply frame_init.
  - split; auto.
  - split; auto.
Qed.

Lemma frame_run (acts : list action) (st : state) : frame st (run H st acts).
Proof.
  revert st; induction acts as [|a acts IH]; intros st; simpl.
  - reflexivity.
  - etransitivity; [apply frame_step | apply IH].
Qed.

(** A successful factory call leaves the client it returns in the cache. *)
Lemma init_fills_cache (st st' : state) (s : service) :
  _init_sheets_service H st = (Ok s, st') -> _sheets_service st' = Some s.
Proof.
  unfold _init_sheets_service.
  destruct (_sheets_service st) as [s0|] eqn:Hc.
  - intros Hr; injection Hr as <- <-; exact Hc.
  - cbv zeta; unfold bind at 1.
    destruct (or_env _ _ st) as [[kp|] st1]; [|discriminate].
    destruct (negb (env_truthy kp)); [discriminate|].
    unfold bind at 1.
    destruct (exists_ H _ st1) as [[found|] st2]; [|discriminate].
    destruct (negb found); [discriminate|].
    unfold bind at 1.
    destruct (load_credentials H _ _ st2) as [[creds|] st3]; [|discriminate].
    unfold bind at 1.
    destruct (_proxy_info_from_env H st3) as [[pinfo|] st4]; [|discriminate].
    unfold bind at 1.
    destruct (build_service H _ _ _ _ _ st4) as [[s1|] st5]; [|discriminate].
    unfold bind, set_sheets_service, ret; simpl.
    intros Hr; injection Hr as <- <-; reflexivity.
Qed.

End Frames.

(** ** The key is read when the module is loaded *)

Lemma key_after_run (H : host) (env : gmap string string) (acts : list action) :
  TAVILY_KEY (run H (module_init env) acts) = env !! "TAVILY_API_KEY".
Proof. destruct (frame_run H acts (module_init env)) as [Hk _]; exact Hk. Qed.

(** C1, as the code has it.  The key is read once, when the module is
    loaded.  In a process loaded without a key (unset or empty), every later
    call of [web_search] raises the [RuntimeError] of line 73 and leaves the
    process as it was, so it makes no request, whatever happened in between,
    a change of the environment included. *)
Theorem key_read_at_import (H : host) (env : gmap string string)
    (acts : list action) (query search_depth max_results : pyval) :
  env_truthy (env !! "TAVILY_API_KEY") = false ->
  let st := run H (module_init env) acts in
  web_search H query search_depth max_results st =
    (Err (RuntimeError "TAVILY_API_KEY is not set"), st) /\
  network_calls (trace (snd (web_search H query search_depth max_results st))) =
    network_calls (trace st).
Proof.
  intros Hk st.
  assert (Hw : web_search H query search_depth max_results st =
               (Err (RuntimeError "TAVILY_API_KEY is not set"), st)).
  { apply web_search_no_key; unfold st; now rewrite key_after_run. }
  split; [exact Hw | now rewrite Hw].
Qed.

Lemma key_read_at_import_witness :
  let st := run Sample.stub (module_init ∅)
              [CallWebSearch (PStr "q") (PStr "basic") (PInt 5);
               Setenv "TAVILY_API_KEY" "tvly_k"] in
  environ st !! "TAVILY_API_KEY" = Some "tvly_k" /\
  web_search Sample.stub (PStr "q") (PStr "basic") (PInt 5) st =
    (Err (RuntimeError "TAVILY_API_KEY is not set"), st).
Proof.
  intros st; split; [vm_compute; reflexivity|].
  apply (key_read_at_import Sample.stub ∅
           [CallWebSearch (PStr "q") (PStr "basic") (PInt 5);
            Setenv "TAVILY_API_KEY" "tvly_k"]
           (PStr "q") (PStr "basic") (PInt 5)).
  reflexivity.
Defined.

(** C1 as stated fails both ways.  A key removed from the environment after
    the module was loaded is absent at call time, yet the call goes through
    and reaches the backend; a key put into the environment after the module
    was loaded is present at call time, yet the call still raises. *)
Lemma key_not_checked_per_call :
  (let st := run Sample.stub (module_init Sample.env_key) [Unsetenv "TAVILY_API_KEY"] in
   environ st !! "TAVILY_API_KEY" = None /\
   exists v st',
     web_search Sample.stub (PStr "q") (PStr "basic") (PInt 5) st = (Ok v, st') /\
     length (network_calls (trace st')) = 1%nat) /\
  (let st := run Sample.stub (module_init ∅) [Setenv "TAVILY_API_KEY" "tvly_k"] in
   environ st !! "TAVILY_API_KEY" = Some "tvly_k" /\
   web_search Sample.stub (PStr "q") (PStr "basic") (PInt 5) st =
     (Err (RuntimeError "TAVILY_API_KEY is not set"), st)).
Proof.
  split.
  - split; [vm_compute; reflexivity|].
    eexists; eexists; split; vm_compute; reflexivity.
  - split; vm_compute; reflexivity.
Qed.

(** ** The cached Sheets client *)

(** C8.  Once the factory has returned a client, every later call, after
    any tool calls and any change of the environment, returns that same
    client (same reference, same credentials and proxy) and leaves the
    process exactly as it was: nothing is read again, neither the key file
    nor the proxy variables, and the cache still holds that client. *)
Theorem sheets_client_cached (H : host) (st st1 : state) (s : service)
    (acts : list action) :
  _init_sheets_service H st = (Ok s, st1) ->
  let st2 := run H st1 acts in
  _init_sheets_service H st2 = (Ok s, st2) /\
  _sheets_service st2 = Some s /\
  trace (snd (_init_sheets_service H st2)) = trace st2.
Proof.
  intros Hi st2.
  assert (Hc : _sheets_service st2 = Some s).
  { destruct (frame_run H acts st1) as [_ Hkeep].
    apply Hkeep, (init_fills_cache H st st1 s Hi). }
  rewrite (init_cached H st2 s Hc); auto.
Qed.

Lemma sheets_client_cached_witness :
  let st := module_init Sample.env_sheets in
  let st1 := snd (_init_sheets_service Sample.stub st) in
  let st2 := run Sample.stub st1
               [Setenv "HTTPS_PROXY" "http://proxy.local:3128";
                CallAppendToSheet (PStr "X") (PStr "Sheet1!A1:B") (PList [PList [PStr "a"]]);
                Unsetenv "GOOGLE_APPLICATION_CREDENTIALS"] in
  fst (_init_sheets_service Sample.stub st2) = fst (_init_sheets_service Sample.stub st) /\
  snd (_init_sheets_service Sample.stub st2) = st2.
Proof.
  intros st st1 st2.
  destruct (_init_sheets_service Sample.stub st) as [[s|e] st1'] eqn:Hi;
    [|vm_compute in Hi; discriminate].
  destruct (sheets_client_cached Sample.stub st st1' s
              [Setenv "HTTPS_PROXY" "http://proxy.local:3128";
               CallAppendToSheet (PStr "X") (PStr "Sheet1!A1:B") (PList [PList [PStr "a"]]);
               Unsetenv "GOOGLE_APPLICATION_CREDENTIALS"] Hi) as (Hagain & _ & _).
  assert (Hst : st1 = st1') by (unfold st1; try rewrite Hi; reflexivity).
  unfold st2; rewrite Hst, Hagain; split; reflexivity.
Defined.

(** ** Proxy configuration *)

Lemma first_set_none (env : gmap string string) (names : list string) :
  (forall k, k ∈ names -> env !! k = None) -> first_set env names = None.
Proof.
  induction names as [|k rest IH]; intros Hn; simpl; [reflexivity|].
  rewrite (Hn k) by (left; reflexivity).
  apply IH; intros k' Hk'; apply Hn; now right.
Qed.

Lemma first_set_app (env : gmap string string) (l1 l2 : list string) :
  first_set env (l1 ++ l2) =
    match first_set env l1 with
    | Some v => Some v
    | None => first_set env l2
    end.
Proof.
  induction l1 as [|k l1 IH]; simpl; [reflexivity|].
  destruct (env !! k) as [v|]; [destruct (String.eqb v "")|]; auto.
Qed.

Lemma reads_of_app (env : gmap string string) (l1 l2 : list string) :
  reads_of env (l1 ++ l2) =
    (reads_of env l1 ++
     match first_set env l1 with
     | Some _ => []
     | None => reads_of env l2
     end)%list.
Proof.
  induction l1 as [|k l1 IH]; simpl; [reflexivity|].
  destruct (env !! k) as [v|]; simpl; [destruct (String.eqb v ""); simpl|];
    now rewrite ?IH.
Qed.

Lemma reads_getenv (k : string) : reads [k] (getenv k).
Proof.
  intros st; exists (environ st !! k); split.
  - unfold getenv, emit, with_trace; simpl.
    destruct (env_truthy (environ st !! k)); reflexivity.
  - simpl; destruct (environ st !! k) as [v|]; simpl; [|reflexivity].
    destruct (String.eqb v ""); reflexivity.
Qed.

Lemma reads_or_env (names : list string) (a : M (option string)) (k : string) :
  reads names a -> reads (names ++ [k]) (or_env a (getenv k)).
Proof.
  intros Ha st; destruct (Ha st) as (x & Hx & Hf).
  unfold or_env, bind; rewrite Hx, first_set_app, reads_of_app, Hf.
  destruct (env_truthy x) eqn:Ht.
  - exists x; rewrite Ht; destruct x as [v|]; [|discriminate].
    rewrite app_nil_r; split; reflexivity.
  - exists (environ st !! k); split.
    + unfold getenv, emit, with_trace; simpl; do 2 f_equal.
      rewrite <- app_assoc; do 2 f_equal.
      destruct (env_truthy (environ st !! k)); reflexivity.
    + simpl; destruct (environ st !! k) as [v|]; simpl; [|reflexivity].
      destruct (String.eqb v ""); reflexivity.
Qed.

Lemma reads_proxy_vars :
  reads proxy_vars
    (or_env (or_env (or_env (getenv "HTTPS_PROXY") (getenv "https_proxy"))
                    (getenv "HTTP_PROXY"))
            (getenv "http_proxy")).
Proof.
  apply (reads_or_env ["HTTPS_PROXY"; "https_proxy"; "HTTP_PROXY"]).
  apply (reads_or_env ["HTTPS_PROXY"; "https_proxy"]).
  apply (reads_or_env ["HTTPS_PROXY"]).
  apply reads_getenv.
Qed.

Lemma proxy_info_run (H : host) (st : state) :
  _proxy_info_from_env H st =
    (match first_set (environ st) proxy_vars with
     | Some u => proxy_for H u
     | None => Ok None
     end,
     with_trace (trace st ++ reads_of (environ st) proxy_vars) st).
Proof.
  unfold _proxy_info_from_env, bind.
  destruct (reads_proxy_vars st) as (x & -> & ->).
  destruct (env_truthy x) eqn:Ht; simpl; [|reflexivity].
  destruct x as [u|]; [simpl|discriminate].
  unfold lift, proxy_for, ret.
  destruct (urlparse H u) as [p|]; simpl; [|reflexivity].
  destruct (port p); reflexivity.
Qed.

Lemma first_set_head (env : gmap string string) (k u : string) (rest : list string) :
  env !! k = Some u -> u <> "" -> first_set env (k :: rest) = Some u.
Proof.
  intros Hk Hu; simpl; rewrite Hk.
  apply String.eqb_neq in Hu; now rewrite Hu.
Qed.

Lemma first_set_skip (env : gmap string string) (k : string) (rest : list string) :
  env_truthy (env !! k) = false -> first_set env (k :: rest) = first_set env rest.
Proof.
  simpl; destruct (env !! k) as [v|]; simpl; [|reflexivity].
  intros Hv; apply negb_false_iff in Hv; now rewrite Hv.
Qed.

(** C9.  The proxy URL is the value of the first of [HTTPS_PROXY],
    [https_proxy], [HTTP_PROXY], [http_proxy] that is set (a variable set to
    the empty string counts as not set); when none is set there is no proxy;
    when the URL parsed carries no port the port is 8080, and a port it
    carries is kept. *)
Theorem proxy_precedence (H : host) (st : state) :
  let env := environ st in
  let r := fst (_proxy_info_from_env H st) in
  r = match first_set env proxy_vars with
      | Some u => proxy_for H u
      | None => Ok None
      end /\
  ((forall k, k ∈ proxy_vars -> env !! k = None) -> r = Ok None) /\
  (forall u, env !! "HTTPS_PROXY" = Some u -> u <> "" -> r = proxy_for H u) /\
  (forall u, env_truthy (env !! "HTTPS_PROXY") = false ->
     env !! "https_proxy" = Some u -> u <> "" -> r = proxy_for H u) /\
  (forall u, env_truthy (env !! "HTTPS_PROXY") = false ->
     env_truthy (env !! "https_proxy") = false ->
     env !! "HTTP_PROXY" = Some u -> u <> "" -> r = proxy_for H u) /\
  (forall u, env_truthy (env !! "HTTPS_PROXY") = false ->
     env_truthy (env !! "https_proxy") = false ->
     env_truthy (env !! "HTTP_PROXY") = false ->
     env !! "http_proxy" = Some u -> u <> "" -> r = proxy_for H u) /\
  (forall u p, urlparse H u = Ok p -> port p = Ok None ->
     proxy_for H u =
       Ok (Some {| proxy_type := PROXY_TYPE_HTTP; proxy_host := hostname p;
                   proxy_port := 8080;
                   proxy_user := username p; proxy_pass := password p |})) /\
  (forall u p n, urlparse H u = Ok p -> port p = Ok (Some n) -> n <> 0 ->
     proxy_for H u =
       Ok (Some {| proxy_type := PROXY_TYPE_HTTP; proxy_host := hostname p;
                   proxy_port := n;
                   proxy_user := username p; proxy_pass := password p |})).
Proof.
  intros env r.
  assert (Hr : r = match first_set env proxy_vars with
                   | Some u => proxy_for H u
                   | None => Ok None
                   end)
    by (unfold r; now rewrite proxy_info_run).
  split; [exact Hr|].
  split; [intros Hn; now rewrite Hr, first_set_none|].
  unfold proxy_vars in Hr.
  split; [intros u Hu Hne; rewrite Hr, (first_set_head _ _ u) by assumption;
          reflexivity|].
  split; [intros u H1 Hu Hne; rewrite Hr;
          do 1 rewrite first_set_skip by assumption;
          rewrite (first_set_head _ _ u) by assumption; reflexivity|].
  split; [intros u H1 H2 Hu Hne; rewrite Hr;
          do 2 rewrite first_set_skip by assumption;
          rewrite (first_set_head _ _ u) by assumption; reflexivity|].
  split; [intros u H1 H2 H3 Hu Hne; rewrite Hr;
          do 3 rewrite first_set_skip by assumption;
          rewrite (first_set_head _ _ u) by assumption; reflexivity|].
  split.
  - intros u p Hp Hn; unfold proxy_for; rewrite Hp; simpl; rewrite Hn; reflexivity.
  - intros u p n Hp Hn Hz; unfold proxy_for; rewrite Hp; simpl; rewrite Hn; simpl.
    apply Z.eqb_neq in Hz; now rewrite Hz.
Qed.

Lemma proxy_precedence_witness :
  let env : gmap string string :=
    {[ "HTTP_PROXY" := "http://proxy.local:3128"; "https_proxy" := "http://proxy.local" ]} in
  fst (_proxy_info_from_env Sample.stub (module_init env)) =
    Ok (Some {| proxy_type := 3; proxy_host := Some "proxy.local"; proxy_port := 8080;
                proxy_user := None; proxy_pass := None |}).
Proof.
  intros env.
  destruct (proxy_precedence Sample.stub (module_init env))
    as (_ & _ & _ & Hsecond & _ & _ & Hdefault & _).
  rewrite (Hsecond "http://proxy.local");
    [|reflexivity | vm_compute; reflexivity | discriminate].
  apply (Hdefault "http://proxy.local"
           {| hostname := Some "proxy.local"; port := Ok None;
              username := None; password := None |}); reflexivity.
Defined.

(** ** The first call of the client factory *)

Lemma reads_of_none (env : gmap string string) (names : list string) :
  first_set env names = None -> reads_of env names = map EvGetenv names.
Proof.
  induction names as [|k rest IH]; simpl; [reflexivity|].
  destruct (env !! k) as [v|]; simpl.
  - destruct (String.eqb v ""); simpl; [|discriminate].
    intros Hn; now rewrite IH.
  - intros Hn; now rewrite IH.
Qed.

Lemma reads_credential_vars :
  reads credential_vars
    (or_env (getenv "SERVICE_ACCOUNT_FILE") (getenv "GOOGLE_APPLICATION_CREDENTIALS")).
Proof. apply (reads_or_env ["SERVICE_ACCOUNT_FILE"]), reads_getenv. Qed.

Lemma init_first_call (H : host) (st : state) :
  _sheets_service st = None ->
  _init_sheets_service H st =
    let st1 := with_trace (trace st ++ reads_of (environ st) credential_vars) st in
    match first_set (environ st) credential_vars with
    | Some p => connect H p st1
    | None =>
        (Err (RuntimeError "Set GOOGLE_APPLICATION_CREDENTIALS or SERVICE_ACCOUNT_FILE to your service account JSON"),
         st1)
    end.
Proof.
  intros Hc; unfold _init_sheets_service; rewrite Hc; cbv zeta.
  unfold bind at 1.
  destruct (reads_credential_vars st) as (x & -> & ->).
  destruct (env_truthy x) eqn:Ht; simpl; [|reflexivity].
  destruct x as [p|]; [reflexivity | discriminate].
Qed.

Lemma connect_missing (H : host) (p : string) (st : state) :
  path_exists H (trace st) p = false ->
  connect H p st =
    (Err (FileNotFoundError ("Credential file not found: " ++ p)),
     emit (EvExists p) st).
Proof.
  intros Hp; unfold connect, bind, exists_; rewrite Hp; reflexivity.
Qed.

Lemma connect_found (H : host) (p : string) (st : state) :
  path_exists H (trace st) p = true ->
  exists rest,
    trace (snd (connect H p st)) =
      (trace st ++ [EvExists p; EvReadKeyFile p sheets_scopes] ++ rest)%list.
Proof.
  intros Hp; unfold connect, bind at 1, exists_; rewrite Hp; simpl.
  unfold bind at 1, load_credentials.
  destruct (from_service_account_file H _ p) as [info|e]; simpl.
  - unfold bind at 1; rewrite proxy_info_run.
    match goal with |- context [match ?r with Ok _ => _ | Err _ => _ end] =>
      destruct r as [pinfo|e] end.
    + unfold bind at 1, build_service; simpl.
      match goal with |- context [build H ?t ?a ?v] => destruct (build H t a v) end;
        simpl; rewrite <- !app_assoc; simpl; eexists; reflexivity.
    + simpl; rewrite <- !app_assoc; simpl; eexists; reflexivity.
  - exists []; rewrite <- !app_assoc; reflexivity.
Qed.

(** C7.  On a first call (nothing cached) the factory takes the credential
    path from [SERVICE_ACCOUNT_FILE], and from
    [GOOGLE_APPLICATION_CREDENTIALS] only when the former is not set (set to
    the empty string counts as not set).  With neither set it raises the
    [RuntimeError] of line 145 before it looks at the file system; with a
    path that does not exist it raises [FileNotFoundError] naming that path
    before it reads any key file; otherwise the file it reads is the one at
    that path. *)
Theorem credential_path_resolution (H : host) (st : state) :
  _sheets_service st = None ->
  let env := environ st in
  let st1 := with_trace (trace st ++ reads_of env credential_vars) st in
  (forall p, env !! "SERVICE_ACCOUNT_FILE" = Some p -> p <> "" ->
     first_set env credential_vars = Some p /\
     trace st1 = (trace st ++ [EvGetenv "SERVICE_ACCOUNT_FILE"])%list) /\
  (forall q, env_truthy (env !! "SERVICE_ACCOUNT_FILE") = false ->
     env !! "GOOGLE_APPLICATION_CREDENTIALS" = Some q -> q <> "" ->
     first_set env credential_vars = Some q) /\
  (env !! "SERVICE_ACCOUNT_FILE" = None ->
   env !! "GOOGLE_APPLICATION_CREDENTIALS" = None ->
     first_set env credential_vars = None) /\
  (first_set env credential_vars = None ->
     _init_sheets_service H st =
       (Err (RuntimeError "Set GOOGLE_APPLICATION_CREDENTIALS or SERVICE_ACCOUNT_FILE to your service account JSON"),
        st1) /\
     trace st1 = (trace st ++ [EvGetenv "SERVICE_ACCOUNT_FILE";
                               EvGetenv "GOOGLE_APPLICATION_CREDENTIALS"])%list) /\
  (forall p, first_set env credential_vars = Some p ->
     path_exists H (trace st1) p = false ->
     _init_sheets_service H st =
       (Err (FileNotFoundError ("Credential file not found: " ++ p)),
        emit (EvExists p) st1)) /\
  (forall p, first_set env credential_vars = Some p ->
     path_exists H (trace st1) p = true ->
     exists rest,
       trace (snd (_init_sheets_service H st)) =
         (trace st1 ++ [EvExists p; EvReadKeyFile p sheets_scopes] ++ rest)%list).
Proof.
  intros Hc env st1.
  pose proof (init_first_call H st Hc) as Hi; cbv zeta in Hi; fold env st1 in Hi.
  split; [|split; [|split; [|split; [|split]]]].
  - intros p Hp Hne; split; [now apply first_set_head|].
    unfold st1; simpl; rewrite Hp; simpl.
    apply String.eqb_neq in Hne; now rewrite Hne.
  - intros q Hs Hq Hne; unfold credential_vars.
    rewrite first_set_skip by assumption.
    now apply first_set_head.
  - intros H1 H2; simpl; now rewrite H1, H2.
  - intros Hn; rewrite Hi, Hn; split; [reflexivity|].
    unfold st1, with_trace; cbn [trace]; now rewrite (reads_of_none _ _ Hn).
  - intros p Hp He; rewrite Hi, Hp; now apply connect_missing.
  - intros p Hp He; rewrite Hi, Hp; now apply connect_found.
Qed.

Lemma credential_path_resolution_witness :
  let env : gmap string string :=
    {[ "SERVICE_ACCOUNT_FILE" := "/nowhere.json";
       "GOOGLE_APPLICATION_CREDENTIALS" := "/etc/sa.json" ]} in
  fst (_init_sheets_service Sample.stub (module_init env)) =
    Err (FileNotFoundError "Credential file not found: /nowhere.json") /\
  fst (_init_sheets_service Sample.stub (module_init ∅)) =
    Err (RuntimeError "Set GOOGLE_APPLICATION_CREDENTIALS or SERVICE_ACCOUNT_FILE to your service account JSON").
Proof.
  intros env; split.
  - destruct (credential_path_resolution Sample.stub (module_init env) eq_refl)
      as (Hfirst & _ & _ & _ & Hmissing & _).
    destruct (Hfirst "/nowhere.json") as [Hp _];
      [vm_compute; reflexivity | discriminate |].
    rewrite (Hmissing "/nowhere.json" Hp); [reflexivity|].
    vm_compute; reflexivity.
  - destruct (credential_path_resolution Sample.stub (module_init ∅) eq_refl)
      as (_ & _ & Hnone & Hunset & _).
    destruct Hunset as [-> _]; [|reflexivity].
    apply Hnone; reflexivity.
Defined.

(** ** [append_to_sheet] *)

Lemma rows_rejected_false (rows : pyval) :
  rows_rejected rows = false <->
  rows = PList [] \/ exists r rest, rows = PList (PList r :: rest).
Proof.
  unfold rows_rejected, first_not_list; split.
  - destruct rows as [| | | |l|]; simpl; try discriminate.
    destruct l as [|r0 rest]; [now left|].
    destruct r0; simpl; try discriminate.
    intros _; right; eauto.
  - intros [->|(r & rest & ->)]; reflexivity.
Qed.

Lemma rows_rejected_true (rows : pyval) :
  rows_rejected rows = true <->
  Py.is_list rows = false \/
  exists r0 rest, rows = PList (r0 :: rest) /\ Py.is_list r0 = false.
Proof.
  unfold rows_rejected, first_not_list; split.
  - destruct rows as [| | | |l|]; simpl; auto.
    destruct l as [|r0 rest]; [discriminate|].
    intros Hr; right; exists r0, rest; split; [reflexivity|].
    now apply negb_true_iff.
  - intros [Hl|(r0 & rest & -> & Hr)].
    + now rewrite Hl.
    + simpl; now rewrite Hr.
Qed.

Section AppendPaths.

Variable H : host.
Variables (spreadsheet_id range_name rows : pyval) (st : state).

Lemma append_rejects_rows :
  rows_rejected rows = true ->
  exists msg,
    append_to_sheet H spreadsheet_id range_name rows st = (Err (ValueError msg), st).
Proof.
  intros Hr; unfold append_to_sheet, rows_rejected in *.
  destruct (negb (Py.truthy spreadsheet_id)); [eexists; reflexivity|].
  destruct (negb (Py.truthy range_name)); [eexists; reflexivity|].
  rewrite Hr; eexists; reflexivity.
Qed.

Lemma append_validated :
  Py.truthy spreadsheet_id = true -> Py.truthy range_name = true ->
  append_to_sheet H spreadsheet_id range_name rows st =
    if rows_rejected rows
    then (Err (ValueError "rows must be a list of lists"), st)
    else proceed H spreadsheet_id range_name rows st.
Proof.
  intros Hs Hn; unfold append_to_sheet, rows_rejected; rewrite Hs, Hn; simpl.
  destruct (negb (Py.is_list rows) || first_not_list rows); reflexivity.
Qed.

Lemma proceed_no_rows (s : service) (st1 : state) (resp n : pyval) :
  _init_sheets_service H st = (Ok s, st1) ->
  sheets_execute H (trace st1) s (append_request spreadsheet_id range_name rows) = Ok resp ->
  reported_rows resp = Ok n -> Py.truthy n = false ->
  proceed H spreadsheet_id range_name rows st =
    (Ok (PDict [("updatedRows", PInt 0)]),
     emit (EvLog "Sheets append: spreadsheet=%s range=%s rows=%d"
                 [spreadsheet_id; range_name; PInt 0])
          (emit (EvExecute (svc_ref s) (append_request spreadsheet_id range_name rows)) st1)).
Proof.
  intros Hi He Hn Ht; unfold proceed.
  unfold bind at 1; rewrite Hi.
  unfold bind at 1, execute; rewrite He.
  unfold reported_rows in Hn.
  unfold bind at 1, lift.
  destruct (Py.get resp "updates" (PDict [])) as [u|]; [|discriminate].
  cbn [rbind] in Hn.
  unfold bind at 1; rewrite Hn.
  unfold Py.or_; rewrite Ht; reflexivity.
Qed.

End AppendPaths.

(** C5, as the code has it.  [append_to_sheet] raises [ValueError], without
    touching the process, when [rows] is not a list or is a non-empty list
    whose first element is not a list.  Only the first element is looked at:
    with a spreadsheet id and a range given, an empty list and any list whose
    first element is a list pass the test, whatever the later elements are. *)
Theorem rows_first_element_checked (H : host)
    (spreadsheet_id range_name rows : pyval) (st : state) :
  ((Py.is_list rows = false \/
    exists r0 rest, rows = PList (r0 :: rest) /\ Py.is_list r0 = false) ->
   exists msg,
     append_to_sheet H spreadsheet_id range_name rows st = (Err (ValueError msg), st)) /\
  (Py.truthy spreadsheet_id = true -> Py.truthy range_name = true ->
   (rows = PList [] \/ exists r rest, rows = PList (PList r :: rest)) ->
   append_to_sheet H spreadsheet_id range_name rows st =
     proceed H spreadsheet_id range_name rows st).
Proof.
  split.
  - intros Hr; apply append_rejects_rows, rows_rejected_true, Hr.
  - intros Hs Hn Hr; rewrite append_validated by assumption.
    apply rows_rejected_false in Hr; now rewrite Hr.
Qed.

Lemma rows_first_element_checked_witness :
  let st := module_init Sample.env_sheets in
  (exists msg,
     append_to_sheet Sample.stub (PStr "X") (PStr "Sheet1!A1:B")
                     (PList [PStr "a"; PList [PStr "b"]]) st =
       (Err (ValueError msg), st)) /\
  append_to_sheet Sample.stub (PStr "X") (PStr "Sheet1!A1:B") (PList []) st =
    proceed Sample.stub (PStr "X") (PStr "Sheet1!A1:B") (PList []) st.
Proof.
  intros st; split.
  - apply (rows_first_element_checked Sample.stub (PStr "X") (PStr "Sheet1!A1:B")
             (PList [PStr "a"; PList [PStr "b"]]) st).
    right; exists (PStr "a"), [PList [PStr "b"]]; split; reflexivity.
  - apply (rows_first_element_checked Sample.stub (PStr "X") (PStr "Sheet1!A1:B")
             (PList []) st); [reflexivity | reflexivity | now left].
Defined.

(** C5 as stated fails: [rows = [["a"], "b"]] is a non-empty list with an
    element that is not a list, yet the call raises nothing, sends the rows
    to the backend as they are and returns its count. *)
Lemma rows_later_elements_unchecked :
  let rows := PList [PList [PStr "a"]; PStr "b"] in
  let call := append_to_sheet Sample.stub (PStr "X") (PStr "Sheet1!A1:B") rows
                              (module_init Sample.env_sheets) in
  existsb (fun r => negb (Py.is_list r)) [PList [PStr "a"]; PStr "b"] = true /\
  fst call = Ok (PDict [("updatedRows", PInt 2)]) /\
  network_calls (trace (snd call)) =
    [EvExecute 0 (append_request (PStr "X") (PStr "Sheet1!A1:B") rows)].
Proof. vm_compute; repeat split; reflexivity. Qed.

(** C6.  [rows = ["a", "b"]] raises [ValueError] and leaves the process as it
    was: no request is made and no client is built.  [rows = []] with a
    spreadsheet id and a range given passes the tests; once the client is
    there and the backend has answered the request without a row count (the
    answer to an append of nothing), the call returns [updatedRows = 0]. *)
Theorem flat_rows_rejected_empty_rows_zero (H : host)
    (spreadsheet_id range_name : pyval) (st : state) :
  (exists msg,
     append_to_sheet H spreadsheet_id range_name (PList [PStr "a"; PStr "b"]) st =
       (Err (ValueError msg), st)) /\
  (forall (s : service) (st1 : state) (resp n : pyval),
     Py.truthy spreadsheet_id = true -> Py.truthy range_name = true ->
     _init_sheets_service H st = (Ok s, st1) ->
     sheets_execute H (trace st1) s
       (append_request spreadsheet_id range_name (PList [])) = Ok resp ->
     reported_rows resp = Ok n -> Py.truthy n = false ->
     append_to_sheet H spreadsheet_id range_name (PList []) st =
       (Ok (PDict [("updatedRows", PInt 0)]),
        emit (EvLog "Sheets append: spreadsheet=%s range=%s rows=%d"
                    [spreadsheet_id; range_name; PInt 0])
             (emit (EvExecute (svc_ref s)
                      (append_request spreadsheet_id range_name (PList []))) st1))).
Proof.
  split.
  - apply append_rejects_rows; reflexivity.
  - intros s st1 resp n Hs Hn Hi He Hr Ht.
    rewrite append_validated by assumption; simpl.
    now apply (proceed_no_rows H spreadsheet_id range_name (PList []) st s st1 resp n).
Qed.

Lemma flat_rows_rejected_empty_rows_zero_witness :
  let st := module_init Sample.env_sheets in
  fst (append_to_sheet Sample.stub (PStr "X") (PStr "Sheet1!A1:B") (PList []) st) =
    Ok (PDict [("updatedRows", PInt 0)]) /\
  network_calls
    (trace (snd (append_to_sheet Sample.stub (PStr "X") (PStr "Sheet1!A1:B") (PList []) st))) =
    [EvExecute 0 (append_request (PStr "X") (PStr "Sheet1!A1:B") (PList []))].
Proof.
  intros st.
  destruct (flat_rows_rejected_empty_rows_zero Sample.stub (PStr "X") (PStr "Sheet1!A1:B") st)
    as [_ Hempty].
  destruct (_init_sheets_service Sample.stub st) as [[s|e] st1] eqn:Hi;
    [|vm_compute in Hi; discriminate].
  rewrite (Hempty s st1 (PDict [("spreadsheetId", PStr "X")]) PNone);
    try reflexivity.
  vm_compute in Hi; injection Hi as <- <-; split; reflexivity.
Defined.

(** The second end-to-end scenario of the specification: one row appended,
    one row reported. *)
Example append_one_row :
  fst (append_to_sheet Sample.stub (PStr "X") (PStr "Sheet1!A1:B")
         (PList [PList [PStr "a"; PStr "b"]]) (module_init Sample.env_sheets)) =
    Ok (PDict [("updatedRows", PInt 1)]).
Proof. vm_compute; reflexivity. Qed.

(** * Further properties of [web_search] *)

Lemma network_calls_app (t1 t2 : list event) :
  network_calls (t1 ++ t2) = (network_calls t1 ++ network_calls t2)%list.
Proof. unfold network_calls; apply filter_app. Qed.

Lemma network_calls_after_post (query search_depth : pyval) (b : Z) (st : state) :
  network_calls (trace (after_post query search_depth b st)) =
    (network_calls (trace st) ++
     [EvPost TAVILY_ENDPOINT (search_headers (TAVILY_KEY st))
             (search_payload query search_depth b) 30])%list.
Proof.
  unfold after_post, emit; cbn [trace TAVILY_KEY].
  rewrite !network_calls_app, <- app_assoc; reflexivity.
Qed.

(** X1.  A call of [web_search] makes no request at all when the key is
    missing, the query is bad or [max_results] cannot be coerced (the process
    is left exactly as it was), and otherwise makes exactly one: a POST to
    the Tavily endpoint, bearer-authenticated with the module's key, with a
    30 second timeout, whatever the backend answers.  There is no retry. *)
Theorem web_search_one_request (H : host) (query search_depth max_results : pyval)
    (st : state) :
  let st' := snd (web_search H query search_depth max_results st) in
  ((env_truthy (TAVILY_KEY st) = false \/ bad_query query = true \/
    exists e, Py.int (int_of_str H) max_results = Err e) -> st' = st) /\
  (forall m, env_truthy (TAVILY_KEY st) = true -> bad_query query = false ->
     Py.int (int_of_str H) max_results = Ok m ->
     let b := Z.max 1 (Z.min m 20) in
     st' = after_post query search_depth b st /\
     network_calls (trace st') =
       (network_calls (trace st) ++
        [EvPost "https://api.tavily.com/search"
                [("Authorization", String.append "Bearer " (default "" (TAVILY_KEY st)));
                 ("Content-Type", "application/json")]
                {| p_query := query; p_search_depth := search_depth;
                   p_max_results := b |} 30])%list).
Proof.
  intros st'; split.
  - intros Hcase; unfold st'.
    destruct (env_truthy (TAVILY_KEY st)) eqn:Hk;
      [|now rewrite web_search_no_key].
    destruct (bad_query query) eqn:Hq;
      [now rewrite web_search_bad_query|].
    destruct Hcase as [Hf|[Hf|[e He]]]; try discriminate.
    now rewrite (web_search_bad_int H query search_depth max_results st e).
  - intros m Hk Hq Hi b.
    assert (Hs : st' = after_post query search_depth b st)
      by (unfold st'; now rewrite (web_search_posts H query search_depth max_results st m)).
    split; [exact Hs|].
    rewrite Hs; apply network_calls_after_post.
Qed.

Lemma web_search_one_request_witness :
  let st := module_init Sample.env_key in
  length (network_calls (trace (snd
    (web_search Sample.stub (PStr "q") (PStr "basic") (PInt 7) st)))) = 1%nat /\
  snd (web_search Sample.stub (PStr "") (PStr "basic") (PInt 7) st) = st.
Proof.
  intros st.
  destruct (web_search_one_request Sample.stub (PStr "q") (PStr "basic") (PInt 7) st)
    as [_ Hone].
  destruct (web_search_one_request Sample.stub (PStr "") (PStr "basic") (PInt 7) st)
    as [Hnone _].
  split.
  - destruct (Hone 7) as [_ ->]; reflexivity.
  - apply Hnone; right; left; reflexivity.
Defined.

(** X2.  What the backend's answer makes of the call, once the request went
    out.  A failure of the request is raised as it is.  An answer that is not
    a JSON object raises [AttributeError]; an object without [results] gives
    an empty result list; an object whose [results] is [null] raises
    [TypeError] (the default of [get] only covers a missing key). *)
Theorem web_search_answer_edges (H : host) (query search_depth max_results : pyval)
    (st : state) (m : Z) :
  env_truthy (TAVILY_KEY st) = true -> bad_query query = false ->
  Py.int (int_of_str H) max_results = Ok m ->
  let b := Z.max 1 (Z.min m 20) in
  let call := web_search H query search_depth max_results st in
  snd call = after_post query search_depth b st /\
  (forall e, backend_answer H query search_depth b st = Err e -> fst call = Err e) /\
  (forall data, backend_answer H query search_depth b st = Ok data ->
     (forall kv, data <> PDict kv) ->
     fst call = Err (AttributeError "object has no attribute 'get'")) /\
  (forall kv, backend_answer H query search_depth b st = Ok (PDict kv) ->
     Py.assoc "results" kv = None ->
     fst call = Ok (PDict [("query", query); ("results", PList [])])) /\
  (forall kv, backend_answer H query search_depth b st = Ok (PDict kv) ->
     Py.assoc "results" kv = Some PNone ->
     fst call = Err (TypeError "object is not subscriptable")).
Proof.
  intros Hk Hq Hi b call.
  assert (Hc : call = (data <-? backend_answer H query search_depth b st ;;
                       shape query b data,
                       after_post query search_depth b st))
    by (apply web_search_posts; assumption).
  rewrite Hc; cbn [fst snd].
  split; [reflexivity|].
  split; [intros e ->; reflexivity|].
  split; [|split].
  - intros data -> Hn; cbn [rbind]; unfold shape.
    destruct data; try reflexivity.
    now destruct (Hn kv).
  - intros kv -> Hr; cbn [rbind]; unfold shape, Py.get; rewrite Hr; cbn [rbind].
    unfold Py.slice_upto; rewrite stop_nonneg by (unfold b; lia).
    rewrite take_nil; reflexivity.
  - intros kv -> Hr; cbn [rbind]; unfold shape, Py.get; rewrite Hr; reflexivity.
Qed.

Lemma web_search_answer_edges_witness :
  let H := {| int_of_str := int_of_str Sample.stub;
              urlparse := urlparse Sample.stub;
              path_exists := path_exists Sample.stub;
              from_service_account_file := from_service_account_file Sample.stub;
              build := build Sample.stub;
              tavily_post := fun _ _ _ _ => Ok (PDict [("answer", PStr "none")]);
              sheets_execute := sheets_execute Sample.stub |} in
  fst (web_search H (PStr "q") (PStr "basic") (PInt 5) (module_init Sample.env_key)) =
    Ok (PDict [("query", PStr "q"); ("results", PList [])]).
Proof.
  intros H.
  destruct (web_search_answer_edges H (PStr "q") (PStr "basic") (PInt 5)
              (module_init Sample.env_key) 5 eq_refl eq_refl eq_refl)
    as (_ & _ & _ & Hmissing & _).
  apply (Hmissing [("answer", PStr "none")]); reflexivity.
Defined.

(** ** Result items, again *)

Lemma or_empty_cases (o : option pyval) :
  or_empty o = PStr "" \/ Py.truthy (or_empty o) = true.
Proof.
  unfold or_empty, Py.or_.
  destruct (Py.truthy (default PNone o)) eqn:Ht; [right; exact Ht | now left].
Qed.

Lemma or_empty_fixed (o : option pyval) : or_empty (Some (or_empty o)) = or_empty o.
Proof.
  destruct (or_empty_cases o) as [->|Ht]; [reflexivity|].
  unfold or_empty at 1, Py.or_; simpl; now rewrite Ht.
Qed.

Lemma slice_upto_sliceable_inv (o : option pyval) (n : Z) (r : pyval) :
  Py.slice_upto (or_empty o) n = Ok r -> sliceable o = true.
Proof.
  unfold sliceable; destruct (blank o) eqn:Hb; [reflexivity|]; simpl.
  destruct o as [v|]; [|discriminate]; simpl in Hb.
  apply negb_false_iff in Hb.
  unfold or_empty, Py.or_; simpl; rewrite Hb.
  destruct v; simpl; intros Hs; try discriminate; reflexivity.
Qed.


Lemma result_item_well_formed (item r : pyval) :
  result_item item = Ok r -> well_formed item.
Proof.
  destruct item as [| | | | |kv]; try (simpl; discriminate).
  rewrite result_item_dict; intros Hr.
  destruct (Py.slice_upto (or_empty (Py.assoc "title" kv)) 300) as [t|] eqn:Et;
    cbn [rbind] in Hr; [|discriminate].
  destruct (Py.slice_upto (or_empty (Py.assoc "content" kv)) 2000) as [c|] eqn:Ec;
    cbn [rbind] in Hr; [|discriminate].
  split; [eexists; reflexivity|].
  split; simpl; eapply slice_upto_sliceable_inv; eassumption.
Qed.

Lemma slice_upto_fixed (o : option pyval) (n : Z) (t : pyval) :
  0 < n -> Py.slice_upto (or_empty o) n = Ok t ->
  Py.slice_upto (or_empty (Some t)) n = Ok t.
Proof.
  intros Hn Hs.
  destruct (or_empty_cases o) as [He|Ht].
  - rewrite He in Hs; unfold Py.slice_upto in Hs; rewrite stop_nonneg in Hs by lia.
    injection Hs as <-.
    replace (Py.str_take (Z.to_nat n) "") with "" by (now destruct (Z.to_nat n)).
    rewrite or_empty_str; apply slice_upto_short_str; simpl; lia.
  - destruct (or_empty o) as [| | |s|l|]; simpl in Hs; try discriminate;
      rewrite stop_nonneg in Hs by lia; injection Hs as <-.
    + rewrite or_empty_str; apply slice_upto_short_str.
      pose proof (str_take_length (Z.to_nat n) s); lia.
    + destruct l as [|x l]; [discriminate|].
      destruct (Z.to_nat n) as [|k] eqn:Hk; [lia|].
      unfold or_empty, Py.or_; simpl.
      rewrite stop_nonneg by lia; rewrite Hk.
      change (x :: take k l) with (take (S k) (x :: l)).
      now rewrite take_take, Nat.min_id.
Qed.



(** X4.  A result item is already in normal form: building a result item
    from a result item gives the same item back. *)
Theorem result_item_idempotent (item r : pyval) :
  result_item item = Ok r -> result_item r = Ok r.
Proof.
  destruct item as [| | | | |kv]; try (simpl; discriminate).
  rewrite result_item_dict; intros Hr.
  destruct (Py.slice_upto (or_empty (Py.assoc "title" kv)) 300) as [t|] eqn:Et;
    cbn [rbind] in Hr; [|discriminate].
  destruct (Py.slice_upto (or_empty (Py.assoc "content" kv)) 2000) as [c|] eqn:Ec;
    cbn [rbind] in Hr; [|discriminate].
  injection Hr as <-.
  rewrite result_item_dict.
  set (u := or_empty (Py.assoc "url" kv)).
  change (Py.assoc "title" _) with (Some t).
  change (Py.assoc "content" _) with (Some c).
  change (Py.assoc "url" _) with (Some u).
  rewrite (slice_upto_fixed _ 300 t ltac:(lia) Et); cbn [rbind].
  rewrite (slice_upto_fixed _ 2000 c ltac:(lia) Ec); cbn [rbind].
  unfold u; now rewrite or_empty_fixed.
Qed.

Lemma result_item_idempotent_witness :
  result_item (PDict [("title", PStr "T"); ("url", PStr "u"); ("content", PStr "")]) =
    Ok (PDict [("title", PStr "T"); ("url", PStr "u"); ("content", PStr "")]).
Proof.
  apply (result_item_idempotent (PDict [("url", PStr "u"); ("title", PStr "T"); ("extra", PInt 1)])).
  reflexivity.
Defined.

(** ** [web_search], again *)

Lemma collect_ok_well_formed (items out res : list pyval) :
  collect items out = Ok res -> Forall well_formed items.
Proof.
  intros Hc; apply collect_spec in Hc; destruct Hc as (rs & Hf & _).
  induction Hf as [|item r items rs Hr _ IH]; constructor; [|exact IH].
  eapply result_item_well_formed; eassumption.
Qed.

(** X5.  All or nothing, and only up to the bound.  When the backend's
    [results] is an array, the call returns a result exactly when each of its
    first [b] entries can be made into an item, [b] the clamped
    [max_results]: one bad entry among them fails the whole call, and entries
    past the bound are never looked at. *)
Theorem web_search_all_or_nothing (H : host) (query search_depth max_results : pyval)
    (st : state) (m : Z) (data : pyval) (items : list pyval) :
  env_truthy (TAVILY_KEY st) = true -> bad_query query = false ->
  Py.int (int_of_str H) max_results = Ok m ->
  let b := Z.max 1 (Z.min m 20) in
  backend_answer H query search_depth b st = Ok data ->
  Py.get data "results" (PList []) = Ok (PList items) ->
  ((exists v, fst (web_search H query search_depth max_results st) = Ok v) <->
   Forall well_formed (take (Z.to_nat b) items)) /\
  fst (web_search H query search_depth max_results st) =
    (out <-? collect (take (Z.to_nat b) items) [] ;;
     Ok (PDict [("query", query); ("results", PList out)])).
Proof.
  intros Hk Hq Hi b Hd Hg.
  assert (Hf : fst (web_search H query search_depth max_results st) =
               (out <-? collect (take (Z.to_nat b) items) [] ;;
                Ok (PDict [("query", query); ("results", PList out)]))).
  { rewrite (web_search_posts H query search_depth max_results st m Hk Hq Hi).
    fold b; rewrite Hd; cbn [fst rbind]; unfold shape; rewrite Hg; cbn [rbind].
    unfold Py.slice_upto; rewrite stop_nonneg by (unfold b; lia).
    reflexivity. }
  split; [|exact Hf].
  rewrite Hf; split.
  - intros [v Hv].
    destruct (collect (take (Z.to_nat b) items) []) as [out|] eqn:Hc;
      [|discriminate].
    eapply collect_ok_well_formed; eassumption.
  - intros Hw; destruct (collect_total _ [] Hw) as [out ->].
    eexists; reflexivity.
Qed.

Lemma web_search_all_or_nothing_witness :
  let H := {| int_of_str := int_of_str Sample.stub;
              urlparse := urlparse Sample.stub;
              path_exists := path_exists Sample.stub;
              from_service_account_file := from_service_account_file Sample.stub;
              build := build Sample.stub;
              tavily_post := fun _ _ _ _ =>
                Ok (PDict [("results", PList [Sample.item "1"; PStr "broken"])]);
              sheets_execute := sheets_execute Sample.stub |} in
  let st := module_init Sample.env_key in
  (exists v, fst (web_search H (PStr "q") (PStr "basic") (PInt 1) st) = Ok v) /\
  ~ (exists v, fst (web_search H (PStr "q") (PStr "basic") (PInt 2) st) = Ok v).
Proof.
  intros H st; split.
  - apply (web_search_all_or_nothing H (PStr "q") (PStr "basic") (PInt 1) st 1
             (PDict [("results", PList [Sample.item "1"; PStr "broken"])])
             [Sample.item "1"; PStr "broken"]); try reflexivity.
    repeat constructor; eexists; reflexivity.
  - intros Hv.
    apply (web_search_all_or_nothing H (PStr "q") (PStr "basic") (PInt 2) st 2
             (PDict [("results", PList [Sample.item "1"; PStr "broken"])])
             [Sample.item "1"; PStr "broken"]) in Hv; try reflexivity.
    inversion Hv as [|? ? _ Hrest]; subst.
    inversion Hrest as [|? ? [[kv Hkv] _] _]; discriminate.
Defined.



(** ** The client factory, step by step *)

Lemma connect_run (H : host) (p : string) (st : state) :
  connect H p st = connect_outcome H p st.
Proof.
  unfold connect, connect_outcome, bind at 1, exists_.
  destruct (path_exists H (trace st) p); [|reflexivity].
  cbn [negb]; unfold bind at 1, load_credentials; fold (checked p st).
  destruct (from_service_account_file H (trace (checked p st)) p) as [info|e];
    cbn [rbind]; [|reflexivity].
  fold (loaded p st).
  unfold bind at 1; rewrite proxy_info_run.
  change (environ (loaded p st)) with (environ st).
  fold (proxy_choice H (environ st)); fold (resolved p st).
  destruct (proxy_choice H (environ st)) as [pinfo|e]; [|reflexivity].
  unfold bind at 1, build_service.
  destruct (build H (trace (resolved p st)) "sheets" "v4"); reflexivity.
Qed.

Lemma init_run (H : host) (st : state) :
  _sheets_service st = None ->
  _init_sheets_service H st =
    match first_set (environ st) credential_vars with
    | Some p => connect_outcome H p (consulted st)
    | None =>
        (Err (RuntimeError "Set GOOGLE_APPLICATION_CREDENTIALS or SERVICE_ACCOUNT_FILE to your service account JSON"),
         consulted st)
    end.
Proof.
  intros Hc; rewrite (init_first_call H st Hc); cbv zeta; fold (consulted st).
  destruct (first_set (environ st) credential_vars); [apply connect_run | reflexivity].
Qed.

Lemma reads_of_setup (env : gmap string string) (names : list string) :
  forallb is_setup (reads_of env names) = true.
Proof.
  induction names as [|k rest IH]; simpl; [reflexivity|].
  destruct (env_truthy (env !! k)); [reflexivity | exact IH].
Qed.

(** X7.  The factory raises only when nothing is cached, and then caches
    nothing: the environment, the key, the (empty) cache and the reference
    counter are as before, so the next call starts from the environment
    again. *)
Theorem factory_failure_caches_nothing (H : host) (st st' : state) (e : exn) :
  _init_sheets_service H st = (Err e, st') ->
  _sheets_service st = None /\ _sheets_service st' = None /\
  environ st' = environ st /\ TAVILY_KEY st' = TAVILY_KEY st /\
  next_ref st' = next_ref st.
Proof.
  intros Hi.
  destruct (_sheets_service st) as [s|] eqn:Hc.
  - rewrite (init_cached H st s Hc) in Hi; discriminate.
  - rewrite (init_run H st Hc) in Hi.
    split; [reflexivity|].
    destruct (first_set (environ st) credential_vars) as [p|].
    + unfold connect_outcome in Hi.
      destruct (path_exists H (trace (consulted st)) p).
      * destruct (from_service_account_file H _ p) as [info|].
        -- destruct (proxy_choice H (environ (consulted st))) as [pinfo|].
           ++ destruct (build H _ "sheets" "v4"); [discriminate|].
              injection Hi as _ <-; repeat split; exact Hc.
           ++ injection Hi as _ <-; repeat split; exact Hc.
        -- injection Hi as _ <-; repeat split; exact Hc.
      * injection Hi as _ <-; repeat split; exact Hc.
    + injection Hi as _ <-; repeat split; exact Hc.
Qed.

Lemma factory_failure_caches_nothing_witness :
  let st := module_init {[ "SERVICE_ACCOUNT_FILE" := "/nowhere.json" ]} in
  _sheets_service (snd (_init_sheets_service Sample.stub st)) = None /\
  next_ref (snd (_init_sheets_service Sample.stub st)) = 0%nat.
Proof.
  intros st.
  destruct (factory_failure_caches_nothing Sample.stub st
              (snd (_init_sheets_service Sample.stub st))
              (FileNotFoundError "Credential file not found: /nowhere.json"))
    as (_ & Hc & _ & _ & Hn); [vm_compute; reflexivity|].
  split; [exact Hc | exact Hn].
Defined.



(** X9.  The factory does return a client: on a first call, when one of the
    two credential variables names a path that exists, the key file loads,
    the proxy variables stand for a proxy descriptor (or for none) and the
    client library builds the client, the call returns that client and
    caches it. *)
Theorem factory_succeeds (H : host) (st : state) (p : string) (info : pyval)
    (pinfo : option ProxyInfo) :
  _sheets_service st = None ->
  first_set (environ st) credential_vars = Some p ->
  path_exists H (trace (consulted st)) p = true ->
  from_service_account_file H (trace (checked p (consulted st))) p = Ok info ->
  proxy_choice H (environ st) = Ok pinfo ->
  build H (trace (resolved p (consulted st))) "sheets" "v4" = Ok tt ->
  _init_sheets_service H st =
    (Ok (client st info pinfo), installed p (client st info pinfo) (consulted st)) /\
  _sheets_service (snd (_init_sheets_service H st)) = Some (client st info pinfo).
Proof.
  intros Hc Hp He Hf Hx Hb.
  assert (Hi : _init_sheets_service H st =
               (Ok (client st info pinfo),
                installed p (client st info pinfo) (consulted st))).
  { rewrite (init_run H st Hc), Hp; unfold connect_outcome.
    rewrite He, Hf.
    change (environ (consulted st)) with (environ st); rewrite Hx, Hb.
    reflexivity. }
  split; [exact Hi | now rewrite Hi].
Qed.

Lemma factory_succeeds_witness :
  let st := module_init Sample.env_sheets in
  fst (_init_sheets_service Sample.stub st) =
    Ok (client st (PDict [("type", PStr "service_account")]) None).
Proof.
  intros st.
  destruct (factory_succeeds Sample.stub st "/etc/sa.json"
              (PDict [("type", PStr "service_account")]) None) as [-> _];
    reflexivity.
Defined.

(** X10.  A factory call only reads environment variables, tests a path,
    reads a key file and builds the client: whatever its outcome it sends no
    request to either backend and writes no log line. *)
Theorem factory_only_sets_up (H : host) (st : state) :
  exists t,
    trace (snd (_init_sheets_service H st)) = (trace st ++ t)%list /\
    forallb is_setup t = true /\
    network_calls (trace (snd (_init_sheets_service H st))) = network_calls (trace st).
Proof.
  assert (Hnet : forall t, forallb is_setup t = true -> network_calls t = []).
  { induction t as [|e t IH]; [reflexivity|]; simpl.
    intros Hs; apply andb_true_iff in Hs; destruct Hs as [He Ht].
    unfold network_calls in *; rewrite filter_cons.
    destruct (decide (is_network e = true)) as [Hd|_]; [|now apply IH].
    destruct e; simpl in He, Hd; discriminate. }
  assert (Hgoal : exists t,
            trace (snd (_init_sheets_service H st)) = (trace st ++ t)%list /\
            forallb is_setup t = true).
  { destruct (_sheets_service st) as [s|] eqn:Hc.
    - rewrite (init_cached H st s Hc); exists []; split;
        [now rewrite app_nil_r | reflexivity].
    - rewrite (init_run H st Hc).
      pose proof (reads_of_setup (environ st) credential_vars) as Hr1.
      pose proof (reads_of_setup (environ st) proxy_vars) as Hr2.
      destruct (first_set (environ st) credential_vars) as [p|].
      + unfold connect_outcome.
        destruct (path_exists H (trace (consulted st)) p);
          [destruct (from_service_account_file H _ p) as [info|];
           [change (environ (consulted st)) with (environ st);
            destruct (proxy_choice H (environ st)) as [pinfo|];
            [destruct (build H _ "sheets" "v4")|]|]|];
          unfold installed, resolved, loaded, checked, consulted, emit, with_trace;
          cbn [snd trace environ]; rewrite <- ?app_assoc;
          (eexists; split; [reflexivity|]);
          rewrite ?forallb_app, ?Hr1, ?Hr2; reflexivity.
      + eexists; split; [reflexivity | exact Hr1]. }
  destruct Hgoal as (t & Ht & Hs); exists t; repeat split; try assumption.
  rewrite Ht, network_calls_app, (Hnet t Hs); apply app_nil_r.
Qed.

(** ** The proxy descriptor, again *)

(** X11.  The corners of the proxy descriptor.  A port of 0 counts as no
    port and becomes 8080; host, user and password are taken over from the
    parsed URL as they are (absent ones stay absent) and the type is HTTP;
    a URL the parser rejects, or one whose port is malformed, makes the
    function raise what the parser raised. *)
Theorem proxy_descriptor_edges (H : host) (st : state) (u : string) :
  first_set (environ st) proxy_vars = Some u ->
  (forall p n, urlparse H u = Ok p -> port p = Ok n ->
     fst (_proxy_info_from_env H st) =
       Ok (Some {| proxy_type := 3; proxy_host := hostname p;
                   proxy_port := match n with
                                 | Some 0 | None => 8080
                                 | Some k => k
                                 end;
                   proxy_user := username p; proxy_pass := password p |})) /\
  (forall p e, urlparse H u = Ok p -> port p = Err e ->
     fst (_proxy_info_from_env H st) = Err e) /\
  (forall e, urlparse H u = Err e -> fst (_proxy_info_from_env H st) = Err e).
Proof.
  intros Hu; rewrite proxy_info_run, Hu; cbn [fst]; unfold proxy_for.
  split; [|split].
  - intros p n -> Hn; cbn [rbind]; rewrite Hn; cbn [rbind].
    destruct n as [[| |]|]; reflexivity.
  - intros p e -> Hn; cbn [rbind]; now rewrite Hn.
  - intros e ->; reflexivity.
Qed.

Lemma proxy_descriptor_edges_witness :
  let H := {| int_of_str := int_of_str Sample.stub;
              urlparse := fun _ => Ok {| hostname := Some "h"; port := Ok (Some 0);
                                         username := Some "me"; password := None |};
              path_exists := path_exists Sample.stub;
              from_service_account_file := from_service_account_file Sample.stub;
              build := build Sample.stub;
              tavily_post := tavily_post Sample.stub;
              sheets_execute := sheets_execute Sample.stub |} in
  fst (_proxy_info_from_env H (module_init {[ "http_proxy" := "http://me@h:0" ]})) =
    Ok (Some {| proxy_type := 3; proxy_host := Some "h"; proxy_port := 8080;
                proxy_user := Some "me"; proxy_pass := None |}).
Proof.
  intros H.
  destruct (proxy_descriptor_edges H (module_init {[ "http_proxy" := "http://me@h:0" ]})
              "http://me@h:0") as [Hok _]; [vm_compute; reflexivity|].
  apply (Hok {| hostname := Some "h"; port := Ok (Some 0);
                username := Some "me"; password := None |} (Some 0)); reflexivity.
Defined.

(** X12.  [_proxy_info_from_env] changes nothing of the process and reads
    the four variables in precedence order only as far as it has to: it
    stops at the first one that is set, so with [HTTPS_PROXY] set it reads
    that one alone, and it reads all four only when the first three are not
    set. *)
Theorem proxy_reads_short_circuit (H : host) (st : state) :
  let st' := snd (_proxy_info_from_env H st) in
  untouched st st' /\ next_ref st' = next_ref st /\
  (exists n, (1 <= n <= 4)%nat /\
     trace st' = (trace st ++ map EvGetenv (take n proxy_vars))%list /\
     (forall k, k ∈ take (n - 1) proxy_vars -> env_truthy (environ st !! k) = false) /\
     ((n < 4)%nat -> exists k, proxy_vars !! (n - 1)%nat = Some k /\
                               env_truthy (environ st !! k) = true)).
Proof.
  intros st'; unfold st'; rewrite proxy_info_run; cbn [snd].
  split; [repeat split|]; split; [reflexivity|].
  unfold with_trace; cbn [trace]; unfold proxy_vars; simpl reads_of.
  destruct (env_truthy (environ st !! "HTTPS_PROXY")) eqn:H1;
    [exists 1%nat; repeat split; try lia; simpl;
     [intros k Hk; inversion Hk | intros _; eexists; split; [reflexivity | exact H1]]|].
  destruct (env_truthy (environ st !! "https_proxy")) eqn:H2;
    [exists 2%nat; repeat split; try lia; simpl;
     [intros k Hk; repeat (apply elem_of_cons in Hk; destruct Hk as [->|Hk]; [assumption|]);
      inversion Hk
     | intros _; eexists; split; [reflexivity | exact H2]]|].
  destruct (env_truthy (environ st !! "HTTP_PROXY")) eqn:H3;
    [exists 3%nat; repeat split; try lia; simpl;
     [intros k Hk; repeat (apply elem_of_cons in Hk; destruct Hk as [->|Hk]; [assumption|]);
      inversion Hk
     | intros _; eexists; split; [reflexivity | exact H3]]|].
  exists 4%nat; repeat split; try lia; simpl.
  - destruct (env_truthy (environ st !! "http_proxy")); reflexivity.
  - intros k Hk; repeat (apply elem_of_cons in Hk; destruct Hk as [->|Hk]; [assumption|]);
      inversion Hk.
Qed.

Lemma proxy_reads_short_circuit_witness :
  let st := module_init {[ "https_proxy" := "http://proxy.local" ]} in
  exists n,
    trace (snd (_proxy_info_from_env Sample.stub st)) =
      (trace st ++ map EvGetenv (take n proxy_vars))%list /\
    n = 2%nat.
Proof.
  intros st.
  destruct (proxy_reads_short_circuit Sample.stub st)
    as (_ & _ & n & Hn & Htr & Hbefore & Hat).
  exists n; split; [exact Htr|].
  assert (Hlt : (n < 3)%nat).
  { destruct (Nat.lt_ge_cases n 3) as [Hl|Hge]; [exact Hl|].
    assert (Hk : env_truthy (environ st !! "https_proxy") = false).
    { apply Hbefore.
      destruct n as [|[|[|[|n]]]]; try lia; simpl; set_solver. }
    vm_compute in Hk; discriminate. }
  destruct (Hat ltac:(lia)) as (k & Hk & Ht).
  destruct n as [|[|[|n]]]; try lia.
  simpl in Hk; injection Hk as <-; vm_compute in Ht; discriminate.
Defined.

(** ** [append_to_sheet], step by step *)

Lemma proceed_run (H : host) (spreadsheet_id range_name rows : pyval) (st : state) :
  proceed H spreadsheet_id range_name rows st =
    proceed_outcome H spreadsheet_id range_name rows st.
Proof.
  unfold proceed, proceed_outcome, bind at 1.
  destruct (_init_sheets_service H st) as [[s|e] st1]; [|reflexivity].
  unfold bind at 1, execute; cbv zeta; unfold requested.
  destruct (sheets_execute H (trace st1) s _) as [resp|e]; [|reflexivity].
  unfold row_count, reported_rows, bind at 1, lift.
  destruct (Py.get resp "updates" (PDict [])) as [u|]; cbn [rbind]; [|reflexivity].
  unfold bind at 1.
  destruct (Py.get u "updatedRows" PNone) as [n|]; cbn [rbind]; [|reflexivity].
  unfold bind at 1.
  destruct (Py.int (int_of_str H) (Py.or_ n (PInt 0))); reflexivity.
Qed.

Lemma append_run (H : host) (spreadsheet_id range_name rows : pyval) (st : state) :
  append_to_sheet H spreadsheet_id range_name rows st =
    if validated spreadsheet_id range_name rows
    then proceed_outcome H spreadsheet_id range_name rows st
    else (Err (ValueError
                 (if negb (Py.truthy spreadsheet_id) then "spreadsheet_id is required"
                  else if negb (Py.truthy range_name) then "range_name is required"
                  else "rows must be a list of lists")), st).
Proof.
  unfold validated.
  destruct (Py.truthy spreadsheet_id) eqn:Hs;
    [|unfold append_to_sheet; rewrite Hs; reflexivity].
  destruct (Py.truthy range_name) eqn:Hn;
    [|unfold append_to_sheet; rewrite Hs, Hn; reflexivity].
  rewrite (append_validated H _ _ rows st Hs Hn), proceed_run.
  destruct (rows_rejected rows); reflexivity.
Qed.

Lemma setup_no_network (t : list event) :
  forallb is_setup t = true -> network_calls t = [].
Proof.
  induction t as [|e t IH]; [reflexivity|]; simpl.
  intros Hs; apply andb_true_iff in Hs; destruct Hs as [He Ht].
  unfold network_calls in *; rewrite filter_cons.
  destruct (decide (is_network e = true)) as [Hd|_]; [|now apply IH].
  destruct e; simpl in He, Hd; discriminate.
Qed.

Lemma init_setup_only (H : host) (st : state) :
  exists t,
    trace (snd (_init_sheets_service H st)) = (trace st ++ t)%list /\
    forallb is_setup t = true.
Proof.
  destruct (_sheets_service st) as [s|] eqn:Hc.
  - rewrite (init_cached H st s Hc); exists []; split;
      [now rewrite app_nil_r | reflexivity].
  - rewrite (init_run H st Hc).
    pose proof (reads_of_setup (environ st) credential_vars) as Hr1.
    pose proof (reads_of_setup (environ st) proxy_vars) as Hr2.
    destruct (first_set (environ st) credential_vars) as [p|].
    + unfold connect_outcome.
      destruct (path_exists H (trace (consulted st)) p);
        [destruct (from_service_account_file H _ p) as [info|];
         [change (environ (consulted st)) with (environ st);
          destruct (proxy_choice H (environ st)) as [pinfo|];
          [destruct (build H _ "sheets" "v4")|]|]|];
        unfold installed, resolved, loaded, checked, consulted, emit, with_trace;
        cbn [snd trace environ]; rewrite <- ?app_assoc;
        (eexists; split; [reflexivity|]);
        rewrite ?forallb_app, ?Hr1, ?Hr2; reflexivity.
    + eexists; split; [reflexivity | exact Hr1].
Qed.

Lemma init_no_network (H : host) (st : state) :
  network_calls (trace (snd (_init_sheets_service H st))) = network_calls (trace st).
Proof.
  destruct (init_setup_only H st) as (t & -> & Hs).
  rewrite network_calls_app, (setup_no_network t Hs); apply app_nil_r.
Qed.

(** X13.  The three argument tests of [append_to_sheet] come in the order
    spreadsheet id, range, rows, each with its own message, and all of them
    before anything else: a call they reject leaves the process exactly as
    it was.  An id or a range is rejected when it is false in Python's sense
    (empty, [None], 0). *)
Theorem append_argument_checks (H : host) (spreadsheet_id range_name rows : pyval)
    (st : state) :
  (Py.truthy spreadsheet_id = false ->
   append_to_sheet H spreadsheet_id range_name rows st =
     (Err (ValueError "spreadsheet_id is required"), st)) /\
  (Py.truthy spreadsheet_id = true -> Py.truthy range_name = false ->
   append_to_sheet H spreadsheet_id range_name rows st =
     (Err (ValueError "range_name is required"), st)) /\
  (Py.truthy spreadsheet_id = true -> Py.truthy range_name = true ->
   rows_rejected rows = true ->
   append_to_sheet H spreadsheet_id range_name rows st =
     (Err (ValueError "rows must be a list of lists"), st)) /\
  (validated spreadsheet_id range_name rows = false ->
   snd (append_to_sheet H spreadsheet_id range_name rows st) = st).
Proof.
  rewrite append_run; unfold validated.
  split; [|split; [|split]].
  - intros ->; reflexivity.
  - intros -> ->; reflexivity.
  - intros -> -> ->; reflexivity.
  - intros ->; reflexivity.
Qed.

Lemma append_argument_checks_witness :
  append_to_sheet Sample.stub (PStr "") (PStr "") (PInt 3) (module_init ∅) =
    (Err (ValueError "spreadsheet_id is required"), module_init ∅) /\
  append_to_sheet Sample.stub (PStr "X") PNone (PInt 3) (module_init ∅) =
    (Err (ValueError "range_name is required"), module_init ∅).
Proof.
  split.
  - apply (append_argument_checks Sample.stub (PStr "") (PStr "") (PInt 3) (module_init ∅));
      reflexivity.
  - apply (append_argument_checks Sample.stub (PStr "X") PNone (PInt 3) (module_init ∅));
      reflexivity.
Defined.

(** X14.  With valid arguments, whatever the client factory raises is what
    [append_to_sheet] raises, and no request is sent. *)
Theorem append_factory_failure (H : host) (spreadsheet_id range_name rows : pyval)
    (st st1 : state) (e : exn) :
  validated spreadsheet_id range_name rows = true ->
  _init_sheets_service H st = (Err e, st1) ->
  append_to_sheet H spreadsheet_id range_name rows st = (Err e, st1) /\
  network_calls (trace st1) = network_calls (trace st).
Proof.
  intros Hv Hi; rewrite append_run, Hv; unfold proceed_outcome; rewrite Hi.
  split; [reflexivity|].
  pose proof (init_no_network H st) as Hn; now rewrite Hi in Hn.
Qed.

Lemma append_factory_failure_witness :
  fst (append_to_sheet Sample.stub (PStr "X") (PStr "A1") (PList []) (module_init ∅)) =
    Err (RuntimeError "Set GOOGLE_APPLICATION_CREDENTIALS or SERVICE_ACCOUNT_FILE to your service account JSON").
Proof.
  destruct (append_factory_failure Sample.stub (PStr "X") (PStr "A1") (PList [])
              (module_init ∅)
              (snd (_init_sheets_service Sample.stub (module_init ∅)))
              (RuntimeError "Set GOOGLE_APPLICATION_CREDENTIALS or SERVICE_ACCOUNT_FILE to your service account JSON"))
    as [-> _]; reflexivity.
Defined.

(** X15.  Once the client is there, exactly one request is sent, and what
    the call returns is read off the answer: a failed request is raised as
    it is; otherwise the result is [updatedRows] coerced with [int], 0 when
    the answer has no [updates] or no true [updatedRows]; an answer the count
    cannot be read from (not an object, [updates] not an object, a count
    [int] rejects) raises after the rows were sent.  The success is logged,
    a failure is not. *)
Theorem append_outcome (H : host) (spreadsheet_id range_name rows : pyval)
    (st st1 : state) (s : service) :
  validated spreadsheet_id range_name rows = true ->
  _init_sheets_service H st = (Ok s, st1) ->
  let call := append_to_sheet H spreadsheet_id range_name rows st in
  let st2 := requested s spreadsheet_id range_name rows st1 in
  let answer := sheets_execute H (trace st1) s
                  (append_request spreadsheet_id range_name rows) in
  (forall e, answer = Err e -> call = (Err e, st2)) /\
  (forall resp e, answer = Ok resp -> row_count H resp = Err e -> call = (Err e, st2)) /\
  (forall resp k, answer = Ok resp -> row_count H resp = Ok k ->
     call = (Ok (PDict [("updatedRows", PInt k)]),
             emit (EvLog "Sheets append: spreadsheet=%s range=%s rows=%d"
                         [spreadsheet_id; range_name; PInt k]) st2)) /\
  (forall kv, Py.assoc "updates" kv = None -> row_count H (PDict kv) = Ok 0) /\
  (forall kv kv' k, Py.assoc "updates" kv = Some (PDict kv') ->
     Py.assoc "updatedRows" kv' = Some (PInt k) -> row_count H (PDict kv) = Ok k) /\
  (forall kv kv', Py.assoc "updates" kv = Some (PDict kv') ->
     Py.assoc "updatedRows" kv' = None -> row_count H (PDict kv) = Ok 0).
Proof.
  intros Hv Hi call st2 answer.
  assert (Hc : call = proceed_outcome H spreadsheet_id range_name rows st)
    by (unfold call; now rewrite append_run, Hv).
  unfold proceed_outcome in Hc; rewrite Hi in Hc; cbv zeta in Hc.
  fold answer st2 in Hc.
  split; [intros e He; now rewrite Hc, He|].
  split; [intros resp e He Hr; now rewrite Hc, He, Hr|].
  split; [intros resp k He Hr; now rewrite Hc, He, Hr|].
  unfold row_count, reported_rows, Py.get.
  split; [intros kv ->; reflexivity|].
  split.
  - intros kv kv' k -> ; cbn [rbind]; intros ->; cbn [rbind].
    unfold Py.or_; simpl; destruct (Z.eqb_spec k 0) as [->|]; reflexivity.
  - intros kv kv' ->; cbn [rbind]; intros ->; reflexivity.
Qed.

Lemma append_outcome_witness :
  let st := module_init Sample.env_sheets in
  fst (append_to_sheet Sample.stub (PStr "X") (PStr "Sheet1!A1:B")
         (PList [PList [PStr "a"; PStr "b"]]) st) =
    Ok (PDict [("updatedRows", PInt 1)]).
Proof.
  intros st.
  destruct (_init_sheets_service Sample.stub st) as [[s|e] st1] eqn:Hi;
    [|vm_compute in Hi; discriminate].
  destruct (append_outcome Sample.stub (PStr "X") (PStr "Sheet1!A1:B")
              (PList [PList [PStr "a"; PStr "b"]]) st st1 s eq_refl Hi)
    as (_ & _ & Hok & _).
  rewrite (Hok (PDict [("updates", PDict [("updatedRows", PInt 1)])]) 1);
    reflexivity.
Defined.

(** X16.  A call of [append_to_sheet] sends at most one request, and sends
    one exactly when its arguments are valid and the factory hands it a
    client.  The request names the spreadsheet, the range and the rows as
    they were passed, asks for raw values and inserted rows, and allows two
    retries; it goes out through the client the factory returned. *)
Theorem append_one_request (H : host) (spreadsheet_id range_name rows : pyval)
    (st : state) :
  network_calls (trace (snd (append_to_sheet H spreadsheet_id range_name rows st))) =
    (network_calls (trace st) ++
     match validated spreadsheet_id range_name rows,
           fst (_init_sheets_service H st) with
     | true, Ok s =>
         [EvExecute (svc_ref s)
            {| spreadsheetId := spreadsheet_id; range := range_name;
               valueInputOption := "RAW"; insertDataOption := "INSERT_ROWS";
               body := PDict [("values", rows)]; num_retries := 2 |}]
     | _, _ => []
     end)%list.
Proof.
  rewrite append_run.
  destruct (validated spreadsheet_id range_name rows);
    [|now rewrite app_nil_r].
  unfold proceed_outcome.
  pose proof (init_no_network H st) as Hn.
  destruct (_init_sheets_service H st) as [[s|e] st1]; cbn [fst snd] in *;
    [|now rewrite app_nil_r].
  cbv zeta.
  assert (Hreq : network_calls (trace (requested s spreadsheet_id range_name rows st1)) =
                 (network_calls (trace st) ++
                  [EvExecute (svc_ref s) (append_request spreadsheet_id range_name rows)])%list).
  { unfold requested, emit; cbn [trace]; rewrite network_calls_app, Hn; reflexivity. }
  destruct (sheets_execute H (trace st1) s _) as [resp|]; [|exact Hreq].
  destruct (row_count H resp); [|exact Hreq].
  unfold emit at 1; cbn [snd trace]; rewrite network_calls_app, Hreq.
  now rewrite app_nil_r.
Qed.

(** ** The process as a whole *)

Lemma one_client_emit (e : event) (st : state) : one_client st -> one_client (emit e st).
Proof. intros Hs; exact Hs. Qed.

Lemma one_client_init (H : host) (st : state) :
  one_client st -> one_client (snd (_init_sheets_service H st)).
Proof.
  intros Hs; destruct (_sheets_service st) as [s|] eqn:Hc.
  - now rewrite (init_cached H st s Hc).
  - rewrite (init_run H st Hc).
    assert (Hn : next_ref st = 0%nat) by (unfold one_client in Hs; now rewrite Hc in Hs).
    assert (Hkeep : forall t, one_client (with_trace t st))
      by (intros t; unfold one_client; simpl; now rewrite Hc).
    destruct (first_set (environ st) credential_vars) as [p|]; [|apply Hkeep].
    unfold connect_outcome.
    destruct (path_exists H (trace (consulted st)) p); [|apply Hkeep].
    destruct (from_service_account_file H _ p) as [info|]; [|apply Hkeep].
    destruct (proxy_choice H (environ (consulted st))) as [pinfo|]; [|apply Hkeep].
    destruct (build H _ "sheets" "v4"); [|apply Hkeep].
    unfold one_client; simpl; now rewrite Hn.
Qed.

Lemma web_search_state (H : host) (query search_depth max_results : pyval) (st : state) :
  snd (web_search H query search_depth max_results st) = st \/
  exists b, snd (web_search H query search_depth max_results st) =
            after_post query search_depth b st.
Proof.
  destruct (env_truthy (TAVILY_KEY st)) eqn:Hk;
    [|left; now rewrite web_search_no_key].
  destruct (bad_query query) eqn:Hq;
    [left; now rewrite web_search_bad_query|].
  destruct (Py.int (int_of_str H) max_results) as [m|e] eqn:Hi.
  - right; eexists.
    now rewrite (web_search_posts H query search_depth max_results st m).
  - left; now rewrite (web_search_bad_int H query search_depth max_results st e).
Qed.

Lemma one_client_step (H : host) (st : state) (a : action) :
  one_client st -> one_client (step H st a).
Proof.
  intros Hs; destruct a; simpl.
  - destruct (web_search_state H query search_depth max_results st) as [->|[b ->]];
      exact Hs.
  - rewrite append_run.
    destruct (validated spreadsheet_id range_name rows); [|exact Hs].
    unfold proceed_outcome.
    pose proof (one_client_init H st Hs) as Hi.
    destruct (_init_sheets_service H st) as [[s|e] st1]; [|exact Hi].
    cbv zeta; destruct (sheets_execute H (trace st1) s _) as [resp|]; [|exact Hi].
    destruct (row_count H resp); exact Hi.
  - now apply one_client_init.
  - exact Hs.
  - exact Hs.
Qed.

(** X17.  In a process that starts with the import of the module, whatever
    tools are called and however the environment changes in between, at most
    one Sheets client is ever built: no second client is constructed once one
    is cached, and the cached one is the first and only one. *)
Theorem at_most_one_client (H : host) (env : gmap string string) (acts : list action) :
  let st := run H (module_init env) acts in
  (next_ref st <= 1)%nat /\
  (_sheets_service st = None <-> next_ref st = 0%nat) /\
  (forall s, _sheets_service st = Some s -> svc_ref s = 0%nat).
Proof.
  intros st.
  assert (Hs : one_client st).
  { unfold st; generalize (module_init env) (eq_refl : one_client (module_init env)).
    induction acts as [|a acts IH]; intros st0 H0; simpl; [exact H0|].
    apply IH, one_client_step, H0. }
  unfold one_client in Hs.
  destruct (_sheets_service st) as [s|].
  - destruct Hs as [Hr Hn]; rewrite Hn; repeat split; try lia; try discriminate.
    intros s' Hs'; now injection Hs' as <-.
  - rewrite Hs; repeat split; try lia; discriminate.
Qed.

Lemma at_most_one_client_witness :
  let st := run Sample.stub (module_init Sample.env_sheets)
              [CallAppendToSheet (PStr "X") (PStr "A1") (PList []);
               Setenv "SERVICE_ACCOUNT_FILE" "/etc/sa.json";
               CallInitSheets;
               CallAppendToSheet (PStr "X") (PStr "A1") (PList [])] in
  next_ref st = 1%nat /\ exists s, _sheets_service st = Some s /\ svc_ref s = 0%nat.
Proof.
  intros st.
  destruct (at_most_one_client Sample.stub Sample.env_sheets
              [CallAppendToSheet (PStr "X") (PStr "A1") (PList []);
               Setenv "SERVICE_ACCOUNT_FILE" "/etc/sa.json";
               CallInitSheets;
               CallAppendToSheet (PStr "X") (PStr "A1") (PList [])])
    as (_ & _ & Href).
  split; [vm_compute; reflexivity|].
  destruct (_sheets_service st) as [s|] eqn:Hc; [|vm_compute in Hc; discriminate].
  exists s; split; [reflexivity|].
  apply Href; exact Hc.
Defined.

Lemma init_with_key (H : host) (k : option string) (st : state) :
  _init_sheets_service H (with_key k st) =
    (fst (_init_sheets_service H st), with_key k (snd (_init_sheets_service H st))).
Proof.
  destruct (_sheets_service st) as [s|] eqn:Hc.
  - rewrite (init_cached H st s Hc), (init_cached H (with_key k st) s Hc); reflexivity.
  - rewrite (init_run H st Hc), (init_run H (with_key k st) Hc).
    change (environ (with_key k st)) with (environ st).
    destruct (first_set (environ st) credential_vars) as [p|]; [|reflexivity].
    unfold connect_outcome.
    change (trace (consulted (with_key k st))) with (trace (consulted st)).
    destruct (path_exists H (trace (consulted st)) p); [|reflexivity].
    change (trace (checked p (consulted (with_key k st))))
      with (trace (checked p (consulted st))).
    destruct (from_service_account_file H _ p) as [info|]; [|reflexivity].
    change (environ (consulted (with_key k st))) with (environ (consulted st)).
    destruct (proxy_choice H (environ (consulted st))) as [pinfo|]; [|reflexivity].
    change (trace (resolved p (consulted (with_key k st))))
      with (trace (resolved p (consulted st))).
    destruct (build H _ "sheets" "v4"); reflexivity.
Qed.

(** X18.  [append_to_sheet] neither reads nor changes the search key: in a
    process that differs only in [TAVILY_KEY] it returns the same, performs
    the same effects and leaves the same process behind, that key apart.  It
    works the same with and without [TAVILY_API_KEY]. *)
Theorem append_ignores_search_key (H : host) (spreadsheet_id range_name rows : pyval)
    (k : option string) (st : state) :
  append_to_sheet H spreadsheet_id range_name rows (with_key k st) =
    (fst (append_to_sheet H spreadsheet_id range_name rows st),
     with_key k (snd (append_to_sheet H spreadsheet_id range_name rows st))).
Proof.
  rewrite !append_run.
  destruct (validated spreadsheet_id range_name rows); [|reflexivity].
  unfold proceed_outcome; rewrite init_with_key.
  destruct (_init_sheets_service H st) as [[s|e] st1]; cbn [fst snd]; [|reflexivity].
  cbv zeta; change (trace (with_key k st1)) with (trace st1).
  destruct (sheets_execute H (trace st1) s _) as [resp|]; [|reflexivity].
  destruct (row_count H resp); reflexivity.
Qed.

(** X19.  After one successful factory call every later valid
    [append_to_sheet], whatever happened in between, goes straight to the
    request through that same client: it reads no environment variable and
    no key file again, so a changed credential or proxy variable has no
    effect on it; all it adds to the history is the request and, on success,
    the log line.  The client stays cached whether the request succeeds or
    not. *)
Theorem append_reuses_client (H : host) (st st1 : state) (s : service)
    (acts : list action) (spreadsheet_id range_name rows : pyval) :
  _init_sheets_service H st = (Ok s, st1) ->
  validated spreadsheet_id range_name rows = true ->
  let st2 := run H st1 acts in
  let st3 := snd (append_to_sheet H spreadsheet_id range_name rows st2) in
  _sheets_service st3 = Some s /\
  exists t,
    trace st3 =
      (trace st2 ++
       EvExecute (svc_ref s) (append_request spreadsheet_id range_name rows) :: t)%list /\
    (t = [] \/
     exists k, t = [EvLog "Sheets append: spreadsheet=%s range=%s rows=%d"
                          [spreadsheet_id; range_name; PInt k]]).
Proof.
  intros Hi Hv st2 st3.
  assert (Hc : _sheets_service st2 = Some s).
  { destruct (frame_run H acts st1) as [_ Hkeep].
    apply Hkeep, (init_fills_cache H st st1 s Hi). }
  unfold st3; rewrite append_run, Hv; unfold proceed_outcome.
  rewrite (init_cached H st2 s Hc); cbv zeta.
  destruct (sheets_execute H (trace st2) s _) as [resp|];
    [|split; [exact Hc | exists []; split; [reflexivity | now left]]].
  destruct (row_count H resp) as [k|];
    [|split; [exact Hc | exists []; split; [reflexivity | now left]]].
  split; [exact Hc|].
  eexists; split; [|right; exists k; reflexivity].
  unfold requested, emit; cbn [snd trace]; now rewrite <- app_assoc.
Qed.

Lemma append_reuses_client_witness :
  let st := module_init Sample.env_sheets in
  let st2 := run Sample.stub (snd (_init_sheets_service Sample.stub st))
               [Unsetenv "GOOGLE_APPLICATION_CREDENTIALS";
                Setenv "HTTPS_PROXY" "http://proxy.local:3128"] in
  let st3 := snd (append_to_sheet Sample.stub (PStr "X") (PStr "A1")
                    (PList [PList [PStr "a"]]) st2) in
  _sheets_service st3 = _sheets_service st2 /\
  length (trace st3) = (length (trace st2) + 2)%nat.
Proof.
  intros st st2 st3.
  destruct (_init_sheets_service Sample.stub st) as [[s|e] st1] eqn:Hi;
    [|vm_compute in Hi; discriminate].
  destruct (append_reuses_client Sample.stub st st1 s
              [Unsetenv "GOOGLE_APPLICATION_CREDENTIALS";
               Setenv "HTTPS_PROXY" "http://proxy.local:3128"]
              (PStr "X") (PStr "A1") (PList [PList [PStr "a"]]) Hi eq_refl)
    as [Hc _].
  vm_compute in Hi; injection Hi as <- <-.
  split; vm_compute; reflexivity.
Defined.
